(** * Android report builder: timeline correlation and snapshot matching

    Shallow embedding of [src/Android/build_android_report_by_app.py].

    Python [str] values are modelled as [string] (sequences of 8-bit
    characters); the character predicates and case mapping below are the
    ASCII restrictions of Python's.  A pandas data frame is a list of row
    records in frame order, a missing cell ([None]) is [None] of an option.
    A Python [set] of strings is a [gset string]; the snapshot index, a
    [dict] whose iteration order the code relies on, is an association list
    in insertion order. *)

From Stdlib Require Import ZArith Ascii String.
From stdpp Require Import gmap strings list sorting.

Open Scope string_scope.

(** ** Python string primitives *)

Module PyStr.

(** Truthiness of a string: [if s:]. *)
Definition truthy (s : string) : bool :=
  match s with "" => false | String _ _ => true end.

Definition char_between (lo hi : N) (c : ascii) : bool :=
  let n := N_of_ascii c in ((lo <=? n) && (n <=? hi))%N.

(** [str.isspace] on the ASCII range: TAB..CR, FS..US and the blank. *)
Definition isspace (c : ascii) : bool :=
  char_between 9 13 c || char_between 28 32 c.

(** [str.isdigit] on the ASCII range. *)
Definition isdigit (c : ascii) : bool := char_between 48 57 c.

Definition isupper (c : ascii) : bool := char_between 65 90 c.

Definition lower_char (c : ascii) : ascii :=
  if isupper c then ascii_of_N (N_of_ascii c + 32) else c.

(** [s.lower()] *)
Fixpoint lower (s : string) : string :=
  match s with
  | "" => ""
  | String c s' => String (lower_char c) (lower s')
  end.

(** [s.lstrip()] *)
Fixpoint lstrip (s : string) : string :=
  match s with
  | "" => ""
  | String c s' => if isspace c then lstrip s' else s
  end.

(** [s.rstrip()]: a character survives when it is not blank or when
    something survives after it. *)
Fixpoint rstrip (s : string) : string :=
  match s with
  | "" => ""
  | String c s' =>
      let r := rstrip s' in
      if isspace c && negb (truthy r) then "" else String c r
  end.

(** [s.strip()] *)
Definition strip (s : string) : string := rstrip (lstrip s).

(** [s.replace(a, b)] for one-character [a] and [b]. *)
Fixpoint replace (a b : ascii) (s : string) : string :=
  match s with
  | "" => ""
  | String c s' => String (if Ascii.eqb c a then b else c) (replace a b s')
  end.

(** [s[:n]] *)
Fixpoint take (n : nat) (s : string) : string :=
  match n, s with
  | S n', String c s' => String c (take n' s')
  | _, _ => ""
  end.

(** [s[n:]] *)
Fixpoint drop (n : nat) (s : string) : string :=
  match n, s with
  | S n', String _ s' => drop n' s'
  | _, _ => s
  end.

(** [s.endswith(suffix)] *)
Definition endswith (s suffix : string) : bool :=
  (String.length suffix <=? String.length s)%nat
  && String.eqb (drop (String.length s - String.length suffix) s) suffix.

(** ["".join(ch for ch in s if ch.isdigit())] *)
Fixpoint digits_of (s : string) : string :=
  match s with
  | "" => ""
  | String c s' => if isdigit c then String c (digits_of s') else digits_of s'
  end.

(** [str(x or "")] for a cell holding a string or [None]. *)
Definition str_or_empty (x : option string) : string := default "" x.

(** [str(x)] for a cell holding a string or [None]. *)
Definition str (x : option string) : string := default "None" x.

(** [max(xs)]: the first element, replaced by every later element that
    compares greater; [None] stands for the [ValueError] on an empty
    sequence. *)
Definition max (xs : list string) : option string :=
  match xs with
  | [] => None
  | x :: xs' => Some (foldl (λ m y, if String.ltb m y then y else m) x xs')
  end.

End PyStr.

(** ** The [datetime] values the report builder handles

    [datetime.fromisoformat], [astimezone] and [strftime] belong to the
    Python standard library, not to the repository.  The functions that
    call the parser take it as a parameter (see [Section Report]); this
    module fixes the data they exchange, the calendar arithmetic of the
    time-zone shift, and one concrete parser, [fromisoformat], for the
    strict [YYYY-MM-DD[?HH[:MM[:SS[.fff[fff]]]][(+|-)HH:MM[:SS]]]] grammar,
    which is what the worked examples run on. *)

Module PyDatetime.

Record datetime := {
  year : Z; month : Z; day : Z;
  hour : Z; minute : Z; second : Z; microsecond : Z;
  tzinfo : option Z   (* utcoffset in microseconds, None when naive *)
}.

Definition is_leap (y : Z) : bool :=
  ((y mod 4 =? 0) && negb (y mod 100 =? 0) || (y mod 400 =? 0))%Z.

Definition days_in_month (y m : Z) : Z :=
  if (m =? 2)%Z then (if is_leap y then 29 else 28)%Z
  else if ((m =? 4) || (m =? 6) || (m =? 9) || (m =? 11))%Z then 30%Z
  else 31%Z.

(** Days since 1970-01-01 of a proleptic Gregorian date. *)
Definition days_from_civil (y m d : Z) : Z :=
  let y' := (if m <=? 2 then y - 1 else y)%Z in
  let era := (y' / 400)%Z in
  let yoe := (y' - era * 400)%Z in
  let doy := ((153 * (m + (if 2 <? m then -3 else 9)) + 2) / 5 + d - 1)%Z in
  let doe := (yoe * 365 + yoe / 4 - yoe / 100 + doy)%Z in
  (era * 146097 + doe - 719468)%Z.

Definition civil_from_days (days : Z) : Z * Z * Z :=
  let z := (days + 719468)%Z in
  let era := (z / 146097)%Z in
  let doe := (z - era * 146097)%Z in
  let yoe := ((doe - doe / 1460 + doe / 36524 - doe / 146096) / 365)%Z in
  let doy := (doe - (365 * yoe + yoe / 4 - yoe / 100))%Z in
  let mp := ((5 * doy + 2) / 153)%Z in
  let d := (doy - (153 * mp + 2) / 5 + 1)%Z in
  let m := (if mp <? 10 then mp + 3 else mp - 9)%Z in
  let y := (yoe + era * 400 + (if m <=? 2 then 1 else 0))%Z in
  (y, m, d).

Definition micros_per_day : Z := 86400000000.

(** Microseconds since the epoch of the instant an aware datetime denotes. *)
Definition instant (dt : datetime) : Z :=
  ((days_from_civil (year dt) (month dt) (day dt) * 86400
    + hour dt * 3600 + minute dt * 60 + second dt) * 1000000
   + microsecond dt - default 0 (tzinfo dt))%Z.

(** [dt.replace(tzinfo=tz)] *)
Definition replace_tzinfo (dt : datetime) (off : Z) : datetime :=
  {| year := year dt; month := month dt; day := day dt;
     hour := hour dt; minute := minute dt; second := second dt;
     microsecond := microsecond dt; tzinfo := Some off |}.

(** [dt.astimezone(timezone(off))] for an aware [dt]; [None] is the
    [OverflowError] when the local date leaves years 1..9999. *)
Definition astimezone (dt : datetime) (off : Z) : option datetime :=
  let t := (instant dt + off)%Z in
  let days := (t / micros_per_day)%Z in
  let rest := (t mod micros_per_day)%Z in
  let '(y, m, d) := civil_from_days days in
  if ((1 <=? y) && (y <=? 9999))%Z then
    Some {| year := y; month := m; day := d;
            hour := rest / 3600000000;
            minute := (rest / 60000000) mod 60;
            second := (rest / 1000000) mod 60;
            microsecond := rest mod 1000000;
            tzinfo := Some off |}
  else None.

Definition digit_char (n : Z) : ascii := ascii_of_N (48 + Z.to_N (n mod 10)).

Definition pad2 (n : Z) : string :=
  String (digit_char (n / 10)) (String (digit_char n) "").

Definition pad4 (n : Z) : string := pad2 (n / 100) +:+ pad2 (n mod 100).

(** [dt.strftime("%Y-%m-%d %H:%M")], the year zero-padded to four digits. *)
Definition strftime_minute (dt : datetime) : string :=
  pad4 (year dt) +:+ "-" +:+ pad2 (month dt) +:+ "-" +:+ pad2 (day dt)
  +:+ " " +:+ pad2 (hour dt) +:+ ":" +:+ pad2 (minute dt).

(** *** A concrete ISO-8601 parser *)

Definition digit_val (c : ascii) : option Z :=
  if PyStr.isdigit c then Some (Z.of_N (N_of_ascii c) - 48)%Z else None.

(** Reads exactly [n] decimal digits. *)
Fixpoint read_digits (n : nat) (acc : Z) (s : string) : option (Z * string) :=
  match n with
  | O => Some (acc, s)
  | S n' =>
      match s with
      | String c s' =>
          match digit_val c with
          | Some d => read_digits n' (acc * 10 + d)%Z s'
          | None => None
          end
      | "" => None
      end
  end.

Definition expect (c : ascii) (s : string) : option string :=
  match s with
  | String c' s' => if Ascii.eqb c c' then Some s' else None
  | "" => None
  end.

(** [HH[:MM[:SS[.fff[fff]]]]], the whole of [s]. *)
Definition parse_hh_mm_ss_ff (s : string) : option (Z * Z * Z * Z) :=
  '(h, s1) ← read_digits 2 0 s;
  if negb (PyStr.truthy s1) then Some (h, 0, 0, 0)%Z else
  s1' ← expect ":" s1;
  '(mi, s2) ← read_digits 2 0 s1';
  if negb (PyStr.truthy s2) then Some (h, mi, 0, 0)%Z else
  s2' ← expect ":" s2;
  '(sec, s3) ← read_digits 2 0 s2';
  if negb (PyStr.truthy s3) then Some (h, mi, sec, 0)%Z else
  s3' ← expect "." s3;
  match String.length s3' with
  | 3%nat => '(ms, _) ← read_digits 3 0 s3'; Some (h, mi, sec, ms * 1000)%Z
  | 6%nat => '(us, _) ← read_digits 6 0 s3'; Some (h, mi, sec, us)
  | _ => None
  end.

(** Splits a time string at its first sign character. *)
Fixpoint split_offset (s : string) : string * option (bool * string) :=
  match s with
  | "" => ("", None)
  | String c s' =>
      if Ascii.eqb c "+" then ("", Some (false, s'))
      else if Ascii.eqb c "-" then ("", Some (true, s'))
      else let '(t, o) := split_offset s' in (String c t, o)
  end.

(** [HH:MM] or [HH:MM:SS] after the sign, strictly inside (-24h, 24h). *)
Definition parse_offset (negative : bool) (s : string) : option Z :=
  if negb ((String.length s =? 5)%nat || (String.length s =? 8)%nat) then None else
  '(h, mi, sec, _) ← parse_hh_mm_ss_ff s;
  let off := ((h * 3600 + mi * 60 + sec) * 1000000)%Z in
  if (off <? micros_per_day)%Z then Some (if negative then - off else off)%Z else None.

Definition valid_date (y m d : Z) : bool :=
  ((1 <=? y) && (y <=? 9999) && (1 <=? m) && (m <=? 12)
   && (1 <=? d) && (d <=? days_in_month y m))%Z.

Definition valid_time (h mi sec : Z) : bool :=
  ((h <? 24) && (mi <? 60) && (sec <? 60))%Z.

Definition fromisoformat (s : string) : option datetime :=
  '(y, s1) ← read_digits 4 0 s;
  s1' ← expect "-" s1;
  '(m, s2) ← read_digits 2 0 s1';
  s2' ← expect "-" s2;
  '(d, s3) ← read_digits 2 0 s2';
  if negb (valid_date y m d) then None else
  match s3 with
  | "" => Some {| year := y; month := m; day := d; hour := 0; minute := 0;
                  second := 0; microsecond := 0; tzinfo := None |}
  | String _ tstr =>
      let '(timestr, tz) := split_offset tstr in
      '(h, mi, sec, us) ← parse_hh_mm_ss_ff timestr;
      if negb (valid_time h mi sec) then None else
      match tz with
      | None => Some {| year := y; month := m; day := d; hour := h; minute := mi;
                        second := sec; microsecond := us; tzinfo := None |}
      | Some (neg, tzstr) =>
          off ← parse_offset neg tzstr;
          Some {| year := y; month := m; day := d; hour := h; minute := mi;
                  second := sec; microsecond := us; tzinfo := Some off |}
      end
  end.

End PyDatetime.

(** ** Regular expressions of [_extract_package]

    The four patterns all have the shape "one or more characters of a class,
    captured, followed by a condition on what comes next".  [plus_then]
    is the backtracking matcher of that shape anchored at the head of the
    string: the class is consumed greedily and given back one character at a
    time until the condition holds.  [re_search] tries an anchored matcher
    at every start position, leftmost first. *)

Module Re.

(** The class [[A-Za-z0-9._]]. *)
Definition is_ident (c : ascii) : bool :=
  PyStr.char_between 65 90 c || PyStr.char_between 97 122 c
  || PyStr.isdigit c || Ascii.eqb c "." || Ascii.eqb c "_".

Fixpoint plus_then (cls : ascii → bool) (next : string → bool) (s : string)
  : option string :=
  match s with
  | "" => None
  | String c s' =>
      if cls c then
        match plus_then cls next s' with
        | Some g => Some (String c g)
        | None => if next s' then Some (String c "") else None
        end
      else None
  end.

Fixpoint re_search (m : string → option string) (s : string) : option string :=
  match m s with
  | Some g => Some g
  | None =>
      match s with
      | "" => None
      | String _ s' => re_search m s'
      end
  end.

(** The next character is one of [cs]. *)
Definition next_in (cs : list ascii) (s : string) : bool :=
  match s with
  | "" => false
  | String c _ => existsb (Ascii.eqb c) cs
  end.

(** [$]: the end of the string, or a newline that ends the string. *)
Definition at_end (s : string) : bool :=
  match s with
  | "" => true
  | String c "" => Ascii.eqb c "010"
  | _ => false
  end.

(** [\{([A-Za-z0-9._]+)/] anchored at the head of [s]. *)
Definition brace_component (s : string) : option string :=
  match s with
  | String c s' => if Ascii.eqb c "{" then plus_then is_ident (next_in ["/"%char]) s' else None
  | "" => None
  end.

(** [([A-Za-z0-9._]+)[/ ]] *)
Definition leading_token : string → option string :=
  plus_then is_ident (next_in ["/"; " "]%char).

(** [^([A-Za-z0-9._]+)$] *)
Definition pure_package : string → option string :=
  plus_then is_ident at_end.

(** [([A-Za-z0-9._]+)\.] *)
Definition dotted_prefix : string → option string :=
  plus_then is_ident (next_in ["."%char]).

End Re.

Definition _extract_package (real_activity : option string) : option string :=
  match real_activity with
  | None => None
  | Some ra =>
      if negb (PyStr.truthy ra) then None else
      let s := PyStr.strip ra in
      match Re.re_search Re.brace_component s with
      | Some g => Some g
      | None =>
          match Re.leading_token s with
          | Some g => Some g
          | None =>
              match Re.pure_package s with
              | Some g => Some g
              | None => Re.re_search Re.dotted_prefix s
              end
          end
      end
  end.

(** ** Data frames *)

(** Rows of [recent_tasks] as [read_recenttasks] returns them. *)
Module Rct.
Record row := {
  task_id : option string;
  real_activity : option string;
  last_time_moved : option Z;
  last_time_moved_utc : option string;
  snapshot_file : option string;
  package : option string
}.

Global Instance row_eq_dec : EqDecision row.
Proof. solve_decision. Defined.

(** [df["package"] = df["real_activity"].apply(_extract_package)] *)
Definition with_package (r : row) : row :=
  {| task_id := task_id r; real_activity := real_activity r;
     last_time_moved := last_time_moved r;
     last_time_moved_utc := last_time_moved_utc r;
     snapshot_file := snapshot_file r;
     package := _extract_package (real_activity r) |}.

(** [df["pkg2"] = df["package"].fillna("android").astype(str)] *)
Definition pkg2 (r : row) : string := default "android" (package r).
End Rct.

(** Rows of the usage-event query of [read_usagestats]. *)
Module Usg.
Record row := {
  last_time_kst : option string;
  package : option string;
  types : option string;
  classs : option string;
  source : option string
}.

Global Instance row_eq_dec : EqDecision row.
Proof. solve_decision. Defined.

Definition pkg2 (r : row) : string := default "android" (package r).
End Usg.

(** [df[df["pkg2"] == pkg]] *)
Definition sub_r (df_rct : list Rct.row) (pkg : string) : list Rct.row :=
  filter (λ r, Rct.pkg2 r = pkg) df_rct.

Definition sub_u (df_usg : list Usg.row) (pkg : string) : list Usg.row :=
  filter (λ r, Usg.pkg2 r = pkg) df_usg.

(** ** Snapshot index *)

(** An entry met by [snap_dir.rglob("*")]. *)
Record Path := { parent : string; name : string; is_file : bool }.

(** [d[k] = v] on a dict kept in insertion order: an existing key keeps its
    position and takes the new value, a new key goes last. *)
Fixpoint dict_set {V} (k : string) (v : V) (d : list (string * V)) : list (string * V) :=
  match d with
  | [] => [(k, v)]
  | (k', v') :: d' =>
      if String.eqb k' k then (k, v) :: d' else (k', v') :: dict_set k v d'
  end.

(** [d.get(k)] *)
Fixpoint dict_get {V} (d : list (string * V)) (k : string) : option V :=
  match d with
  | [] => None
  | (k', v) :: d' => if String.eqb k' k then Some v else dict_get d' k
  end.

(** [k in d] *)
Definition dict_mem {V} (d : list (string * V)) (k : string) : bool :=
  bool_decide (is_Some (dict_get d k)).

Definition index_snapshots (entries : list Path) : list (string * Path) :=
  foldl (λ mapping p,
           if is_file p then dict_set (PyStr.lower (name p)) p mapping else mapping)
        [] entries.

(** ** Candidate file names *)

Definition exts : list string := [".jpg"; ".png"; ".webp"; ".jpeg"].

(** [[f"{digits}{e}" for e in exts] + [f"{digits}_reduced{e}" for e in exts]] *)
Definition digit_candidates (digits : string) : list string :=
  map (λ e, digits +:+ e) exts ++ map (λ e, digits +:+ "_reduced" +:+ e) exts.

(** The [candidates] list both loops build from a name and the digits. *)
Definition candidates_of (name digits : string) : list string :=
  (if PyStr.truthy name then [name] else [])
  ++ (if PyStr.truthy digits then digit_candidates digits else []).

(** ** Snapshot score of a package ([_snapshot_score_for_pkg]) *)

(** The inner [for key in snap_index.keys()] loop with its [break]. *)
Fixpoint any_key_endswith (keys : list string) (cand : string) : bool :=
  match keys with
  | [] => false
  | key :: keys' => if PyStr.endswith key cand then true else any_key_endswith keys' cand
  end.

(** The [for cand in candidates] loop: [found] after the loop. *)
Fixpoint found_candidate (snap_index : list (string * Path)) (candidates : list string) : bool :=
  match candidates with
  | [] => false
  | cand :: candidates' =>
      if dict_mem snap_index cand then true
      else if any_key_endswith (snap_index.*1) cand then true
      else found_candidate snap_index candidates'
  end.

(** One iteration of [for _, r in sub_r.iterrows()]: does the row add one
    to the score? *)
Definition row_scores (snap_index : list (string * Path)) (r : Rct.row) : bool :=
  let sf := PyStr.lower (PyStr.strip (PyStr.str_or_empty (Rct.snapshot_file r))) in
  if PyStr.truthy sf && dict_mem snap_index sf then true
  else
    let tid := PyStr.str_or_empty (Rct.task_id r) in
    let digits := PyStr.digits_of tid in
    found_candidate snap_index (candidates_of sf digits).

Definition _snapshot_score_for_pkg
    (snap_index : list (string * Path)) (df_rct2 : list Rct.row) (pkg : string) : Z :=
  match sub_r df_rct2 pkg with
  | [] => 0%Z
  | rows => foldl (λ score r, if row_scores snap_index r then (score + 1)%Z else score) 0%Z rows
  end.

(** ** Snapshot image of a row (the search loop of [build_html]) *)

(** The inner [for key, path in snap_index.items()] loop with its [break]. *)
Fixpoint first_endswith (items : list (string * Path)) (lc : string) : option Path :=
  match items with
  | [] => None
  | (key, path) :: items' =>
      if PyStr.endswith key lc then Some path else first_endswith items' lc
  end.

(** The [for cand in candidates] loop: [found] after the loop. *)
Fixpoint find_candidate (snap_index : list (string * Path)) (candidates : list string) : option Path :=
  match candidates with
  | [] => None
  | cand :: candidates' =>
      let lc := PyStr.lower cand in
      match dict_get snap_index lc with
      | Some path => Some path
      | None =>
          match first_endswith snap_index lc with
          | Some path => Some path
          | None => find_candidate snap_index candidates'
          end
      end
  end.

(** The candidates of one row: [name] and [tid] are [str(...)] of the cell,
    without the [or ""] of the scoring loop. *)
Definition image_candidates (r : Rct.row) : list string :=
  let name := PyStr.strip (PyStr.str (Rct.snapshot_file r)) in
  let tid := PyStr.strip (PyStr.str (Rct.task_id r)) in
  let digits := PyStr.digits_of tid in
  candidates_of name digits.

Definition find_snapshot (snap_index : list (string * Path)) (r : Rct.row) : option Path :=
  find_candidate snap_index (image_candidates r).

(** [found] of every row that has one, in row order. *)
Definition imgs (snap_index : list (string * Path)) (rows : list Rct.row) : list Path :=
  omap (find_snapshot snap_index) rows.

(** ** Ranking of the packages *)

(** [(-score(x), x) <= (-score(y), y)] on tuples. *)
Definition rank_le (score : string → Z) (x y : string) : Prop :=
  (- score x < - score y)%Z ∨ ((- score x = - score y)%Z ∧ String.le x y).

Global Instance rank_le_dec score : RelDecision (rank_le score).
Proof. intros x y. unfold rank_le. apply _. Defined.

(** [sorted(set(df_rct2["pkg2"].unique()).union(set(df_usg2["pkg2"].unique())))] *)
Definition pkgs_all (df_rct2 : list Rct.row) (df_usg2 : list Usg.row) : list string :=
  merge_sort String.le
    (elements ((list_to_set (Rct.pkg2 <$> df_rct2) : gset string)
               ∪ list_to_set (Usg.pkg2 <$> df_usg2))).

(** [sorted(pkgs_all, key=lambda x: (-_snapshot_score_for_pkg(x), x or ""))] *)
Definition pkgs (snap_index : list (string * Path))
    (df_rct2 : list Rct.row) (df_usg2 : list Usg.row) : list string :=
  merge_sort (rank_le (_snapshot_score_for_pkg snap_index df_rct2))
    (pkgs_all df_rct2 df_usg2).

(** ** Minute keys and row classes *)

(** The [class] attribute of a table row: none, ['blue'] when the minute is
    matched by the other source, ['red'] for the most recent minute when
    the most recent minutes of the two sources disagree. *)
Inductive row_cls := NoClass | Blue | Red.

Global Instance row_cls_eq_dec : EqDecision row_cls.
Proof. solve_decision. Defined.

Definition _minute_key_from_usg (s : option string) : string :=
  match s with
  | None => ""
  | Some s =>
      if negb (PyStr.truthy s) then ""
      else PyStr.take 16 (PyStr.strip (PyStr.replace "T" " " s))
  end.

(** [max(S) if S else ""] *)
Definition most_recent (S : gset string) : string :=
  if decide (S = ∅) then "" else default "" (PyStr.max (elements S)).

(** [set(m for m, _ in minutes if m)] *)
Definition min_set (minutes : list (string * nat)) : gset string :=
  list_to_set (filter (λ m : string, PyStr.truthy m) (minutes.*1)).

(** [sub_u.sort_values(by="last_time_kst", ascending=False)]: the rows with
    a value in descending order of the value, then the rows without one.
    As pandas does, the rows with a value are reversed, sorted ascending,
    and reversed again. *)
Definition last_time_le (r1 r2 : Usg.row) : Prop :=
  String.le (PyStr.str_or_empty (Usg.last_time_kst r1))
            (PyStr.str_or_empty (Usg.last_time_kst r2)).

Global Instance last_time_le_dec : RelDecision last_time_le.
Proof. intros x y. unfold last_time_le. apply _. Defined.

Definition sort_values_desc (rows : list Usg.row) : list Usg.row :=
  let non_nans := filter (λ r, is_Some (Usg.last_time_kst r)) rows in
  let nans := filter (λ r, Usg.last_time_kst r = None) rows in
  reverse (merge_sort last_time_le (reverse non_nans)) ++ nans.

Definition kst_offset : Z := (9 * 3600 * 1000000)%Z.

Section Report.

(** [datetime.fromisoformat]; [None] stands for the exception it raises. *)
Variable fromisoformat : string → option PyDatetime.datetime.

Definition _minute_key_from_rct_utc_to_kst (s : option string) : string :=
  match s with
  | None => ""
  | Some s =>
      if negb (PyStr.truthy s) then "" else
      let fallback := PyStr.take 16 (PyStr.replace "T" " " s) in
      let parsed :=
        match fromisoformat s with
        | Some dt => Some dt
        | None => fromisoformat (PyStr.replace " " "T" s)
        end in
      match parsed with
      | None => fallback
      | Some dt =>
          let dt := match PyDatetime.tzinfo dt with
                    | None => PyDatetime.replace_tzinfo dt 0
                    | Some _ => dt
                    end in
          match PyDatetime.astimezone dt kst_offset with
          | Some kst => PyDatetime.strftime_minute kst
          | None => fallback
          end
      end
  end.

Variable df_rct2 : list Rct.row.
Variable df_usg2 : list Usg.row.
Variable pkg : string.

(** [[(key(x), i) for i, x in enumerate(column.dropna().astype(str).tolist())]] *)
Definition usg_minutes : list (string * nat) :=
  imap (λ i x, (_minute_key_from_usg (Some x), i))
       (omap Usg.last_time_kst (sub_u df_usg2 pkg)).

Definition rct_minutes : list (string * nat) :=
  imap (λ i x, (_minute_key_from_rct_utc_to_kst (Some x), i))
       (omap Rct.last_time_moved_utc (sub_r df_rct2 pkg)).

Definition usg_min_set : gset string := min_set usg_minutes.
Definition rct_min_set : gset string := min_set rct_minutes.
Definition intersect_minutes : gset string := usg_min_set ∩ rct_min_set.
Definition most_recent_usg_min : string := most_recent usg_min_set.
Definition most_recent_rct_min : string := most_recent rct_min_set.

(** [row_cls] of a UsageStats row. *)
Definition usg_row_cls (r : Usg.row) : row_cls :=
  let mk := _minute_key_from_usg (Usg.last_time_kst r) in
  if PyStr.truthy mk then
    if bool_decide (mk ∈ intersect_minutes) then Blue
    else if PyStr.truthy most_recent_usg_min && PyStr.truthy most_recent_rct_min
            && String.eqb mk most_recent_usg_min
            && negb (String.eqb most_recent_usg_min most_recent_rct_min)
    then Red
    else NoClass
  else NoClass.

(** [row_cls] of a RecentTasks row. *)
Definition rct_row_cls (r : Rct.row) : row_cls :=
  let mk := _minute_key_from_rct_utc_to_kst (Rct.last_time_moved_utc r) in
  if PyStr.truthy mk then
    if bool_decide (mk ∈ intersect_minutes) then Blue
    else if PyStr.truthy most_recent_usg_min && PyStr.truthy most_recent_rct_min
            && String.eqb mk most_recent_rct_min
            && negb (String.eqb most_recent_usg_min most_recent_rct_min)
    then Red
    else NoClass
  else NoClass.

(** The rows of the UsageStats table of the package, each with its class. *)
Definition usg_table : list (Usg.row * row_cls) :=
  (λ r, (r, usg_row_cls r)) <$> sort_values_desc (sub_u df_usg2 pkg).

(** The rows of the RecentTasks table of the package, each with its class. *)
Definition rct_table : list (Rct.row * row_cls) :=
  (λ r, (r, rct_row_cls r)) <$> sub_r df_rct2 pkg.

End Report.

(** ** Package resolution in declarative form

    What each of the four patterns of [_extract_package] picks out of the
    trimmed descriptor [s], stated on decompositions of [s]. *)

Fixpoint str_forall (P : ascii → bool) (s : string) : bool :=
  match s with
  | "" => true
  | String c s' => P c && str_forall P s'
  end.

(** A non-empty string of characters of [[A-Za-z0-9._]]. *)
Definition Ident (g : string) : Prop :=
  g ≠ "" ∧ str_forall Re.is_ident g = true.

(** [g] is the identifier between the leftmost [{] that is followed by an
    identifier and a [/], and that [/]. *)
Definition brace_first (s g : string) : Prop :=
  ∃ pre post, s = pre +:+ "{" +:+ g +:+ "/" +:+ post ∧ Ident g
    ∧ ∀ pre' g' post', s = pre' +:+ "{" +:+ g' +:+ "/" +:+ post' → Ident g' →
        (String.length pre ≤ String.length pre')%nat.

Definition no_brace (s : string) : Prop :=
  ∀ pre g post, s = pre +:+ "{" +:+ g +:+ "/" +:+ post → ¬ Ident g.

(** [s] starts with the identifier [g] followed by [/] or a blank. *)
Definition leading (s g : string) : Prop :=
  ∃ c post, s = g +:+ String c post ∧ Ident g ∧ (c = "/" ∨ c = " ")%char.

Definition no_leading (s : string) : Prop := ∀ g, ¬ leading s g.

(** [g] is an identifier followed by [.], at the leftmost place of [s] where
    one starts, and the longest one starting there. *)
Definition dotted_first (s g : string) : Prop :=
  ∃ pre post, s = pre +:+ g +:+ "." +:+ post ∧ Ident g
    ∧ ∀ pre' g' post', s = pre' +:+ g' +:+ "." +:+ post' → Ident g' →
        (String.length pre < String.length pre')%nat
        ∨ (String.length pre = String.length pre'
           ∧ (String.length g' ≤ String.length g)%nat).

Definition no_dotted (s : string) : Prop :=
  ∀ pre g post, s = pre +:+ g +:+ "." +:+ post → ¬ Ident g.

(** The last resort as the specification words it: the substring before the
    first [.]. *)
Fixpoint before_first_dot (s : string) : string :=
  match s with
  | "" => ""
  | String c s' => if Ascii.eqb c "." then "" else String c (before_first_dot s')
  end.

(** ** The matcher in the words of the specification

    Section 4.4: the candidates are the stored artifact name, if present,
    then, if the sequence id contains digits, [{digits}{ext}] for each
    extension followed by [{digits}_reduced{ext}] for each extension; each
    candidate is resolved by an exact case-insensitive basename match, and
    failing that by the first indexed basename that ends with the candidate;
    the first candidate that resolves wins.  These definitions are what the
    code of [build_html] is compared with. *)

Definition spec_candidates (stored_name : option string) (sequence_id : string)
  : list string :=
  match stored_name with Some n => [n] | None => [] end
  ++ (let digits := PyStr.digits_of sequence_id in
      if PyStr.truthy digits
      then ((λ e, digits +:+ e) <$> exts) ++ ((λ e, digits +:+ "_reduced" +:+ e) <$> exts)
      else []).

Definition spec_resolve (snap_index : list (string * Path)) (cand : string)
  : option Path :=
  match list_find (λ kv, kv.1 = PyStr.lower cand) snap_index with
  | Some (_, (_, path)) => Some path
  | None =>
      match list_find (λ kv, PyStr.endswith kv.1 (PyStr.lower cand) = true) snap_index with
      | Some (_, (_, path)) => Some path
      | None => None
      end
  end.

Definition spec_matcher (snap_index : list (string * Path))
    (stored_name : option string) (sequence_id : string) : option Path :=
  head (omap (spec_resolve snap_index) (spec_candidates stored_name sequence_id)).

(** ** HTML escaping ([esc] of [build_html]) *)

(** [s.replace(a, b)] for a one-character [a] and any [b]. *)
Fixpoint replace_by (a : ascii) (b : string) (s : string) : string :=
  match s with
  | "" => ""
  | String c s' =>
      if Ascii.eqb c a then b +:+ replace_by a b s' else String c (replace_by a b s')
  end.

(** [str(s).replace("&","&amp;").replace("<","&lt;").replace(">","&gt;")
    if s is not None else ""] on a cell holding a string or [None]. *)
Definition esc (s : option string) : string :=
  match s with
  | None => ""
  | Some s => replace_by ">" "&gt;" (replace_by "<" "&lt;" (replace_by "&" "&amp;" s))
  end.

(** The text [esc] writes for one character. *)
Definition entity (c : ascii) : string :=
  if Ascii.eqb c "&" then "&amp;"
  else if Ascii.eqb c "<" then "&lt;"
  else if Ascii.eqb c ">" then "&gt;"
  else String c "".

(** ** Worked examples *)

Module Demo.

Definition usage (t : string) : Usg.row :=
  {| Usg.last_time_kst := Some t; Usg.package := Some "app.demo";
     Usg.types := Some "ACTIVITY_RESUMED"; Usg.classs := Some "app.demo.Main";
     Usg.source := Some "0" |}.

Definition task (id : string) (utc snap : option string) : Rct.row :=
  Rct.with_package
    {| Rct.task_id := Some id; Rct.real_activity := Some "app.demo/.Main";
       Rct.last_time_moved := None; Rct.last_time_moved_utc := utc;
       Rct.snapshot_file := snap; Rct.package := None |}.

(** Scenario 1 of the specification: usage events in minutes 10:05 and
    10:09, tasks moved in minutes 10:05 and 10:12 (01:05 and 01:12 UTC). *)
Definition df_usg : list Usg.row :=
  [usage "2024-01-01 10:05:10"; usage "2024-01-01 10:09:30"].

Definition df_rct : list Rct.row :=
  [task "7" (Some "2024-01-01T01:12:00+00:00") None;
   task "8" (Some "2024-01-01T01:05:00+00:00") None].

(** The same with a second usage event in minute 10:09. *)
Definition df_usg_twice : list Usg.row :=
  df_usg ++ [usage "2024-01-01 10:09:02"].

(** The same with a task whose time stamp is not a date. *)
Definition df_rct_garbage : list Rct.row :=
  df_rct ++ [task "9" (Some "garbage") None].

(** A task without a time stamp. *)
Definition df_rct_null : list Rct.row :=
  df_rct ++ [task "9" None None].

(** A snapshot directory with the reduced snapshot of task 42 and a file
    named [none]. *)
Definition shot_42 : Path :=
  {| parent := "snapshots"; name := "42_reduced.png"; is_file := true |}.

Definition none_file : Path :=
  {| parent := "snapshots"; name := "none"; is_file := true |}.

(** Task 42 as [build_recenttasks_sqlite.py] stores it when it finds no
    snapshot for the task: [snapshot_file] is NULL. *)
Definition task_42 : Rct.row := task "42" (Some "2024-01-01T01:05:00+00:00") None.

(** A package met only in the usage log. *)
Definition usage_only : Usg.row :=
  {| Usg.last_time_kst := Some "2024-01-01 09:00:00"; Usg.package := Some "a.usage.only";
     Usg.types := Some "ACTIVITY_PAUSED"; Usg.classs := None; Usg.source := None |}.

End Demo.

(** * Properties *)

(** Closes a decidable goal on concrete data by evaluating its decision. *)
Ltac decide_by_compute :=
  match goal with
  | |- ?P => apply (bool_decide_unpack P); vm_compute; exact I
  end.

(** ** Strings *)

Lemma truthy_true s : PyStr.truthy s = true ↔ s ≠ "".
Proof. destruct s; simpl; split; congruence. Qed.

Lemma truthy_false s : PyStr.truthy s = false ↔ s = "".
Proof. destruct s; simpl; split; congruence. Qed.

Lemma ltb_true_le m y : String.ltb m y = true → String.le m y.
Proof.
  unfold String.ltb, String.le, String.leb.
  destruct (String.compare m y); simpl; congruence || done.
Qed.

Lemma ltb_false_le m y : String.ltb m y = false → String.le y m.
Proof.
  unfold String.ltb, String.le, String.leb.
  rewrite (String.compare_antisym m y).
  destruct (String.compare y m); simpl; congruence || done.
Qed.

Lemma le_empty s : String.le "" s.
Proof. by destruct s. Qed.

(** ** Most recent minute *)

Lemma foldl_max_spec xs x :
  let m := foldl (λ m y, if String.ltb m y then y else m) x xs in
  m ∈ x :: xs ∧ ∀ z, z ∈ x :: xs → String.le z m.
Proof.
  revert x. induction xs as [|y xs IH]; intros x; simpl.
  - split; [by left|]. intros z ->%list_elem_of_singleton. reflexivity.
  - destruct (String.ltb x y) eqn:Hlt.
    + destruct (IH y) as [Hin Hub]. split; [by right|].
      intros z [->|Hz]%elem_of_cons; [|by apply Hub].
      etrans; [by apply ltb_true_le|]. apply Hub. by left.
    + destruct (IH x) as [Hin Hub]. split.
      { apply elem_of_cons in Hin as [->|Hin]; [by left|by do 2 right]. }
      intros z [->|[->|Hz]%elem_of_cons]%elem_of_cons.
      * apply Hub. by left.
      * etrans; [by apply ltb_false_le|]. apply Hub. by left.
      * apply Hub. by right.
Qed.

Lemma py_max_spec xs m :
  PyStr.max xs = Some m → m ∈ xs ∧ ∀ z, z ∈ xs → String.le z m.
Proof.
  destruct xs as [|x xs]; simpl; [done|].
  intros [= <-]. apply foldl_max_spec.
Qed.

Lemma most_recent_empty : most_recent ∅ = "".
Proof. unfold most_recent. by rewrite decide_True. Qed.

Lemma most_recent_elem (S : gset string) : S ≠ ∅ → most_recent S ∈ S.
Proof.
  intros HS. unfold most_recent. rewrite decide_False by done.
  destruct (elements S) as [|x xs] eqn:Hel.
  { apply elements_empty_inv in Hel. by apply leibniz_equiv in Hel. }
  destruct (py_max_spec (x :: xs) _ eq_refl) as [Hin _].
  apply elem_of_elements. rewrite Hel. exact Hin.
Qed.

Lemma most_recent_upper (S : gset string) x : x ∈ S → String.le x (most_recent S).
Proof.
  intros Hx. unfold most_recent. rewrite decide_False by set_solver.
  destruct (elements S) as [|y ys] eqn:Hel.
  { apply elem_of_elements in Hx. rewrite Hel in Hx. by apply elem_of_nil in Hx. }
  destruct (py_max_spec (y :: ys) _ eq_refl) as [_ Hub].
  apply Hub. rewrite <- Hel. by apply elem_of_elements.
Qed.

(** ** Minute sets *)

Lemma minutes_keys {A} (f : A → string) (l : list A) :
  (imap (λ i x, (f x, i)) l).*1 = f <$> l.
Proof.
  rewrite fmap_imap. unfold compose. simpl.
  revert f. induction l as [|a l IH]; intros f; simpl; [done|].
  f_equal. exact (IH f).
Qed.

Lemma elem_of_min_set m minutes :
  m ∈ min_set minutes ↔ m ≠ "" ∧ m ∈ minutes.*1.
Proof.
  unfold min_set. rewrite elem_of_list_to_set, list_elem_of_filter.
  rewrite Is_true_true, truthy_true. done.
Qed.

Lemma min_set_nonempty_keys minutes : "" ∉ min_set minutes.
Proof. rewrite elem_of_min_set. by intros [? _]. Qed.

Lemma most_recent_min_set_truthy minutes :
  PyStr.truthy (most_recent (min_set minutes)) = true ↔ min_set minutes ≠ ∅.
Proof.
  rewrite truthy_true. split.
  - intros Hne Heq. rewrite Heq in Hne. by rewrite most_recent_empty in Hne.
  - intros HS Heq. apply most_recent_elem in HS. rewrite Heq in HS.
    by apply min_set_nonempty_keys in HS.
Qed.

Lemma elem_of_usg_min_set df_usg2 pkg m :
  m ∈ usg_min_set df_usg2 pkg
  ↔ m ≠ "" ∧ ∃ r, r ∈ sub_u df_usg2 pkg
                  ∧ _minute_key_from_usg (Usg.last_time_kst r) = m.
Proof.
  unfold usg_min_set, usg_minutes.
  rewrite elem_of_min_set, minutes_keys, list_elem_of_fmap.
  split; intros [Hm H]; (split; [done|]).
  - destruct H as (x & -> & (r & Hr & Hx)%list_elem_of_omap).
    exists r. by rewrite Hx.
  - destruct H as (r & Hr & Hk).
    destruct (Usg.last_time_kst r) as [x|] eqn:Hx; [|by subst m].
    exists x. split; [done|]. apply list_elem_of_omap. by exists r.
Qed.

Lemma elem_of_rct_min_set fromisoformat df_rct2 pkg m :
  m ∈ rct_min_set fromisoformat df_rct2 pkg
  ↔ m ≠ "" ∧ ∃ r, r ∈ sub_r df_rct2 pkg
                  ∧ _minute_key_from_rct_utc_to_kst fromisoformat
                      (Rct.last_time_moved_utc r) = m.
Proof.
  unfold rct_min_set, rct_minutes.
  rewrite elem_of_min_set, minutes_keys, list_elem_of_fmap.
  split; intros [Hm H]; (split; [done|]).
  - destruct H as (x & -> & (r & Hr & Hx)%list_elem_of_omap).
    exists r. by rewrite Hx.
  - destruct H as (r & Hr & Hk).
    destruct (Rct.last_time_moved_utc r) as [x|] eqn:Hx; [|by subst m].
    exists x. split; [done|]. apply list_elem_of_omap. by exists r.
Qed.

(** ** Ordering of the UsageStats rows *)

Global Instance last_time_le_trans : Transitive last_time_le.
Proof. intros x y z. unfold last_time_le. apply transitivity. Qed.

Global Instance last_time_le_total : Total last_time_le.
Proof. intros x y. unfold last_time_le. apply total, _. Qed.

Lemma StronglySorted_reverse {A} (R : relation A) (l : list A) :
  StronglySorted R l → StronglySorted (flip R) (reverse l).
Proof.
  induction 1 as [|a l Hl IH Ha]; [constructor|].
  rewrite reverse_cons. apply StronglySorted_app_2; [|done|repeat constructor].
  intros x1 x2 Hx1 ->%list_elem_of_singleton.
  rewrite elem_of_reverse in Hx1.
  rewrite Forall_forall in Ha. unfold flip. by apply Ha.
Qed.

Lemma StronglySorted_all_related {A} (R : relation A) (l : list A) :
  (∀ x y, x ∈ l → y ∈ l → R x y) → StronglySorted R l.
Proof.
  induction l as [|a l IH]; intros HR; constructor.
  - apply IH. intros x y Hx Hy. apply HR; by right.
  - apply Forall_forall. intros y Hy. apply HR; [by left|by right].
Qed.

Lemma sort_values_desc_Permutation rows : sort_values_desc rows ≡ₚ rows.
Proof.
  unfold sort_values_desc.
  rewrite reverse_Permutation, merge_sort_Permutation, reverse_Permutation.
  rewrite <- (filter_app_complement (λ r, is_Some (Usg.last_time_kst r)) rows) at 3.
  f_equiv. apply reflexive_eq, list_filter_iff.
  intros r. rewrite <- eq_None_not_Some. done.
Qed.

Lemma sort_values_desc_sorted rows :
  StronglySorted (flip last_time_le) (sort_values_desc rows).
Proof.
  unfold sort_values_desc. apply StronglySorted_app_2.
  - intros x1 x2 _ [Hx2 _]%list_elem_of_filter.
    unfold flip, last_time_le. rewrite Hx2. apply le_empty.
  - apply StronglySorted_reverse, StronglySorted_merge_sort; apply _.
  - apply StronglySorted_all_related.
    intros x y [Hx _]%list_elem_of_filter [Hy _]%list_elem_of_filter.
    unfold flip, last_time_le. rewrite Hx, Hy. reflexivity.
Qed.

(** ** Row classes *)

Section Classes.

Variable fromisoformat : string → option PyDatetime.datetime.
Variable df_rct2 : list Rct.row.
Variable df_usg2 : list Usg.row.
Variable pkg : string.

Local Abbreviation rct_key := (_minute_key_from_rct_utc_to_kst fromisoformat).
Local Abbreviation intersect := (intersect_minutes fromisoformat df_rct2 df_usg2 pkg).
Local Abbreviation mru := (most_recent_usg_min df_usg2 pkg).
Local Abbreviation mrr := (most_recent_rct_min fromisoformat df_rct2 pkg).
Local Abbreviation usg_cls := (usg_row_cls fromisoformat df_rct2 df_usg2 pkg).
Local Abbreviation rct_cls := (rct_row_cls fromisoformat df_rct2 df_usg2 pkg).

Lemma intersect_nonempty_keys : "" ∉ intersect.
Proof.
  unfold intersect_minutes. rewrite elem_of_intersection.
  intros [H _]. by apply min_set_nonempty_keys in H.
Qed.

Lemma usg_cls_blue r :
  usg_cls r = Blue ↔ _minute_key_from_usg (Usg.last_time_kst r) ∈ intersect.
Proof.
  unfold usg_row_cls.
  destruct (PyStr.truthy _) eqn:Hmk.
  - case_bool_decide as Hin; [done|].
    split; [|done]. by destruct (_ && _).
  - apply truthy_false in Hmk. rewrite Hmk.
    split; [done|]. intros H. by apply intersect_nonempty_keys in H.
Qed.

Lemma rct_cls_blue r :
  rct_cls r = Blue ↔ rct_key (Rct.last_time_moved_utc r) ∈ intersect.
Proof.
  unfold rct_row_cls.
  destruct (PyStr.truthy _) eqn:Hmk.
  - case_bool_decide as Hin; [done|].
    split; [|done]. by destruct (_ && _).
  - apply truthy_false in Hmk. rewrite Hmk.
    split; [done|]. intros H. by apply intersect_nonempty_keys in H.
Qed.

Lemma usg_cls_red r :
  usg_cls r = Red →
  mru ≠ "" ∧ mrr ≠ "" ∧ mru ≠ mrr
  ∧ _minute_key_from_usg (Usg.last_time_kst r) = mru.
Proof.
  unfold usg_row_cls.
  destruct (PyStr.truthy _); [|done].
  case_bool_decide; [done|].
  destruct (_ && _) eqn:Hc; [|done]. intros _.
  repeat (apply andb_true_iff in Hc as [Hc ?]).
  rewrite <- !truthy_true. repeat split; try done.
  - by apply String.eqb_neq, negb_true_iff.
  - by apply String.eqb_eq.
Qed.

Lemma rct_cls_red r :
  rct_cls r = Red →
  mru ≠ "" ∧ mrr ≠ "" ∧ mru ≠ mrr
  ∧ rct_key (Rct.last_time_moved_utc r) = mrr.
Proof.
  unfold rct_row_cls.
  destruct (PyStr.truthy _); [|done].
  case_bool_decide; [done|].
  destruct (_ && _) eqn:Hc; [|done]. intros _.
  repeat (apply andb_true_iff in Hc as [Hc ?]).
  rewrite <- !truthy_true. repeat split; try done.
  - by apply String.eqb_neq, negb_true_iff.
  - by apply String.eqb_eq.
Qed.

Lemma elem_of_usg_table r c :
  (r, c) ∈ usg_table fromisoformat df_rct2 df_usg2 pkg
  ↔ r ∈ sub_u df_usg2 pkg ∧ c = usg_cls r.
Proof.
  unfold usg_table. rewrite list_elem_of_fmap. split.
  - intros (x & [= -> ->] & Hx). by rewrite sort_values_desc_Permutation in Hx.
  - intros [Hr ->]. exists r. by rewrite sort_values_desc_Permutation.
Qed.

Lemma elem_of_rct_table r c :
  (r, c) ∈ rct_table fromisoformat df_rct2 df_usg2 pkg
  ↔ r ∈ sub_r df_rct2 pkg ∧ c = rct_cls r.
Proof.
  unfold rct_table. rewrite list_elem_of_fmap. split.
  - by intros (x & [= -> ->] & Hx).
  - intros [Hr ->]. by exists r.
Qed.

Lemma usg_table_rows :
  (usg_table fromisoformat df_rct2 df_usg2 pkg).*1
  = sort_values_desc (sub_u df_usg2 pkg).
Proof.
  unfold usg_table. rewrite <- list_fmap_compose. apply list_fmap_id.
Qed.

Lemma rct_table_rows :
  (rct_table fromisoformat df_rct2 df_usg2 pkg).*1 = sub_r df_rct2 pkg.
Proof.
  unfold rct_table. rewrite <- list_fmap_compose. apply list_fmap_id.
Qed.

End Classes.

(** ** Claims on the correlator *)

(** C1: for every package, a UsageStats row of the package is classed blue
    (matched) exactly when its minute key lies in the intersection of the
    package's UsageStats and RecentTasks minute sets, and likewise for every
    RecentTasks row; the table of each source holds exactly the rows of the
    package, each with the class computed for it, and the intersection
    holds exactly the non-empty minute keys that a UsageStats row and a
    RecentTasks row of the package share. *)
Theorem matched_iff_in_intersection
    (fromisoformat : string → option PyDatetime.datetime)
    (df_rct2 : list Rct.row) (df_usg2 : list Usg.row) (pkg : string) :
  (∀ m, m ∈ intersect_minutes fromisoformat df_rct2 df_usg2 pkg ↔
        m ≠ ""
        ∧ (∃ r, r ∈ sub_u df_usg2 pkg
                ∧ _minute_key_from_usg (Usg.last_time_kst r) = m)
        ∧ (∃ r, r ∈ sub_r df_rct2 pkg
                ∧ _minute_key_from_rct_utc_to_kst fromisoformat
                    (Rct.last_time_moved_utc r) = m))
  ∧ (∀ r, r ∈ sub_u df_usg2 pkg ↔
        ∃ c, (r, c) ∈ usg_table fromisoformat df_rct2 df_usg2 pkg)
  ∧ (∀ r c, (r, c) ∈ usg_table fromisoformat df_rct2 df_usg2 pkg →
       (c = Blue ↔ _minute_key_from_usg (Usg.last_time_kst r)
                    ∈ intersect_minutes fromisoformat df_rct2 df_usg2 pkg))
  ∧ (∀ r, r ∈ sub_r df_rct2 pkg ↔
        ∃ c, (r, c) ∈ rct_table fromisoformat df_rct2 df_usg2 pkg)
  ∧ (∀ r c, (r, c) ∈ rct_table fromisoformat df_rct2 df_usg2 pkg →
       (c = Blue ↔ _minute_key_from_rct_utc_to_kst fromisoformat (Rct.last_time_moved_utc r)
                    ∈ intersect_minutes fromisoformat df_rct2 df_usg2 pkg)).
Proof.
  split; [|split; [|split; [|split]]].
  - intros m. unfold intersect_minutes.
    rewrite elem_of_intersection, elem_of_usg_min_set, elem_of_rct_min_set.
    tauto.
  - intros r. split.
    + intros Hr. eexists. apply elem_of_usg_table. eauto.
    + intros [c [Hr _]%elem_of_usg_table]. exact Hr.
  - intros r c [_ ->]%elem_of_usg_table. apply usg_cls_blue.
  - intros r. split.
    + intros Hr. eexists. apply elem_of_rct_table. eauto.
    + intros [c [Hr _]%elem_of_rct_table]. exact Hr.
  - intros r c [_ ->]%elem_of_rct_table. apply rct_cls_blue.
Qed.

Lemma matched_iff_in_intersection_witness :
  (Demo.usage "2024-01-01 10:05:10", Blue)
    ∈ usg_table PyDatetime.fromisoformat Demo.df_rct Demo.df_usg "app.demo"
  ∧ _minute_key_from_usg (Some "2024-01-01 10:05:10")
    ∈ intersect_minutes PyDatetime.fromisoformat Demo.df_rct Demo.df_usg "app.demo".
Proof.
  assert (Hin : (Demo.usage "2024-01-01 10:05:10", Blue)
            ∈ usg_table PyDatetime.fromisoformat Demo.df_rct Demo.df_usg "app.demo")
    by decide_by_compute.
  split; [exact Hin|].
  destruct (matched_iff_in_intersection PyDatetime.fromisoformat
              Demo.df_rct Demo.df_usg "app.demo") as (_ & _ & Hblue & _).
  exact (proj1 (Hblue _ _ Hin) eq_refl).
Defined.


(** C2, as the code has it: a row is classed red (mismatched) only when the
    most recent minutes of both sources are non-empty and differ, and then
    its minute key is the most recent minute of its own source; hence all
    red rows of one table share one minute key.  Nothing limits the number
    of rows in that minute. *)
Theorem mismatched_only_at_most_recent
    (fromisoformat : string → option PyDatetime.datetime)
    (df_rct2 : list Rct.row) (df_usg2 : list Usg.row) (pkg : string) :
  let mru := most_recent_usg_min df_usg2 pkg in
  let mrr := most_recent_rct_min fromisoformat df_rct2 pkg in
  (∀ r c, (r, c) ∈ usg_table fromisoformat df_rct2 df_usg2 pkg → c = Red →
     mru ≠ "" ∧ mrr ≠ "" ∧ mru ≠ mrr
     ∧ _minute_key_from_usg (Usg.last_time_kst r) = mru)
  ∧ (∀ r c, (r, c) ∈ rct_table fromisoformat df_rct2 df_usg2 pkg → c = Red →
     mru ≠ "" ∧ mrr ≠ "" ∧ mru ≠ mrr
     ∧ _minute_key_from_rct_utc_to_kst fromisoformat (Rct.last_time_moved_utc r) = mrr).
Proof.
  split; intros r c Hin ->.
  - apply elem_of_usg_table in Hin as [_ Hc]. symmetry in Hc.
    by apply usg_cls_red in Hc.
  - apply elem_of_rct_table in Hin as [_ Hc]. symmetry in Hc.
    by apply rct_cls_red in Hc.
Qed.

Lemma mismatched_only_at_most_recent_witness :
  most_recent_usg_min Demo.df_usg_twice "app.demo" ≠ ""
  ∧ most_recent_rct_min PyDatetime.fromisoformat Demo.df_rct "app.demo" ≠ ""
  ∧ most_recent_usg_min Demo.df_usg_twice "app.demo"
    ≠ most_recent_rct_min PyDatetime.fromisoformat Demo.df_rct "app.demo"
  ∧ _minute_key_from_usg (Some "2024-01-01 10:09:02")
    = most_recent_usg_min Demo.df_usg_twice "app.demo".
Proof.
  apply (proj1 (mismatched_only_at_most_recent PyDatetime.fromisoformat
                  Demo.df_rct Demo.df_usg_twice "app.demo")
           (Demo.usage "2024-01-01 10:09:02") Red); [|reflexivity].
  decide_by_compute.
Defined.


(** C2 as stated fails: two usage events in the most recent minute are both
    classed red. *)
Lemma two_rows_mismatched :
  usg_table PyDatetime.fromisoformat Demo.df_rct Demo.df_usg_twice "app.demo"
  = [(Demo.usage "2024-01-01 10:09:30", Red);
     (Demo.usage "2024-01-01 10:09:02", Red);
     (Demo.usage "2024-01-01 10:05:10", Blue)]
  ∧ length (filter (λ rc, rc.2 = Red)
       (usg_table PyDatetime.fromisoformat Demo.df_rct Demo.df_usg_twice "app.demo")) = 2.
Proof. split; vm_compute; reflexivity. Qed.

(** C3: when the UsageStats minutes of a package are 10:05 and 10:09 and its
    RecentTasks minutes are 10:05 and 10:12, the intersection is the minute
    10:05, the UsageStats rows of 10:09 and the RecentTasks rows of 10:12
    are red, and the rows of 10:05 of both tables are blue. *)
Theorem scenario_match_mismatch
    (fromisoformat : string → option PyDatetime.datetime)
    (df_rct2 : list Rct.row) (df_usg2 : list Usg.row) (pkg : string) :
  usg_min_set df_usg2 pkg = {["2024-01-01 10:05"; "2024-01-01 10:09"]} →
  rct_min_set fromisoformat df_rct2 pkg = {["2024-01-01 10:05"; "2024-01-01 10:12"]} →
  intersect_minutes fromisoformat df_rct2 df_usg2 pkg = {["2024-01-01 10:05"]}
  ∧ (∀ r c, (r, c) ∈ usg_table fromisoformat df_rct2 df_usg2 pkg →
       (_minute_key_from_usg (Usg.last_time_kst r) = "2024-01-01 10:09" → c = Red)
       ∧ (_minute_key_from_usg (Usg.last_time_kst r) = "2024-01-01 10:05" → c = Blue))
  ∧ (∀ r c, (r, c) ∈ rct_table fromisoformat df_rct2 df_usg2 pkg →
       (_minute_key_from_rct_utc_to_kst fromisoformat (Rct.last_time_moved_utc r)
          = "2024-01-01 10:12" → c = Red)
       ∧ (_minute_key_from_rct_utc_to_kst fromisoformat (Rct.last_time_moved_utc r)
          = "2024-01-01 10:05" → c = Blue)).
Proof.
  intros HA HB.
  assert (Hi : intersect_minutes fromisoformat df_rct2 df_usg2 pkg
               = {["2024-01-01 10:05"]}).
  { unfold intersect_minutes. rewrite HA, HB. vm_compute. reflexivity. }
  assert (Hmru : most_recent_usg_min df_usg2 pkg = "2024-01-01 10:09").
  { unfold most_recent_usg_min. rewrite HA. vm_compute. reflexivity. }
  assert (Hmrr : most_recent_rct_min fromisoformat df_rct2 pkg = "2024-01-01 10:12").
  { unfold most_recent_rct_min. rewrite HB. vm_compute. reflexivity. }
  split; [exact Hi|]. split.
  - intros r c [_ ->]%elem_of_usg_table. unfold usg_row_cls.
    rewrite Hi, Hmru, Hmrr. split; intros ->; vm_compute; reflexivity.
  - intros r c [_ ->]%elem_of_rct_table. unfold rct_row_cls.
    rewrite Hi, Hmru, Hmrr. split; intros ->; vm_compute; reflexivity.
Qed.

Lemma scenario_match_mismatch_witness :
  intersect_minutes PyDatetime.fromisoformat Demo.df_rct Demo.df_usg "app.demo"
    = {["2024-01-01 10:05"]}
  ∧ usg_table PyDatetime.fromisoformat Demo.df_rct Demo.df_usg "app.demo"
    = [(Demo.usage "2024-01-01 10:09:30", Red); (Demo.usage "2024-01-01 10:05:10", Blue)]
  ∧ rct_table PyDatetime.fromisoformat Demo.df_rct Demo.df_usg "app.demo"
    = [(Demo.task "7" (Some "2024-01-01T01:12:00+00:00") None, Red);
       (Demo.task "8" (Some "2024-01-01T01:05:00+00:00") None, Blue)].
Proof.
  split.
  - apply (scenario_match_mismatch PyDatetime.fromisoformat Demo.df_rct Demo.df_usg "app.demo");
      vm_compute; reflexivity.
  - split; vm_compute; reflexivity.
Defined.

(** ** Claims on the minute key of a task *)

Lemma take_replace_nonempty n a b s :
  s ≠ "" → PyStr.take (S n) (PyStr.replace a b s) ≠ "".
Proof. by destruct s. Qed.

Lemma strftime_minute_nonempty dt : PyDatetime.strftime_minute dt ≠ "".
Proof. unfold PyDatetime.strftime_minute, PyDatetime.pad4, PyDatetime.pad2. done. Qed.

Lemma rct_key_cases (fromisoformat : string → option PyDatetime.datetime) s :
  s ≠ "" →
  _minute_key_from_rct_utc_to_kst fromisoformat (Some s)
    = PyStr.take 16 (PyStr.replace "T" " " s)
  ∨ ∃ dt, _minute_key_from_rct_utc_to_kst fromisoformat (Some s)
          = PyDatetime.strftime_minute dt.
Proof.
  intros Hs%truthy_true. unfold _minute_key_from_rct_utc_to_kst.
  rewrite Hs. cbn [negb].
  destruct (match fromisoformat s with
            | Some dt => Some dt
            | None => fromisoformat (PyStr.replace " " "T" s)
            end) as [dt|]; [|by left].
  destruct (PyDatetime.astimezone _ _) as [kst|]; [right; by eexists|by left].
Qed.

Lemma rct_key_empty_iff (fromisoformat : string → option PyDatetime.datetime) s :
  _minute_key_from_rct_utc_to_kst fromisoformat s = "" ↔ s = None ∨ s = Some "".
Proof.
  split.
  - destruct s as [s|]; [|by left].
    destruct (decide (s = "")) as [->|Hs]; [by right|].
    intros Hk. exfalso.
    destruct (rct_key_cases fromisoformat s Hs) as [Hf|[dt Hf]]; rewrite Hf in Hk.
    + by apply (take_replace_nonempty 15 "T" " " s).
    + by apply (strftime_minute_nonempty dt).
  - by intros [->| ->].
Qed.

(** C4, as the code has it: the minute key of a task is empty exactly when
    its stored time stamp is missing or the empty string; a task with an
    empty key adds nothing to the minute set, keeps no class, and stays in
    the table.  A non-empty time stamp that the parser rejects (as it is and
    with blanks replaced by [T]) is not given an empty key: its key is the
    first 16 characters of the stamp with [T] replaced by a blank, which is
    not empty. *)
Theorem unparsable_timestamp_key
    (fromisoformat : string → option PyDatetime.datetime)
    (df_rct2 : list Rct.row) (df_usg2 : list Usg.row) (pkg : string) :
  (∀ s, _minute_key_from_rct_utc_to_kst fromisoformat s = "" ↔ s = None ∨ s = Some "")
  ∧ (∀ s, s ≠ "" → fromisoformat s = None →
          fromisoformat (PyStr.replace " " "T" s) = None →
          _minute_key_from_rct_utc_to_kst fromisoformat (Some s)
            = PyStr.take 16 (PyStr.replace "T" " " s)
          ∧ _minute_key_from_rct_utc_to_kst fromisoformat (Some s) ≠ "")
  ∧ (∀ r, r ∈ sub_r df_rct2 pkg →
          _minute_key_from_rct_utc_to_kst fromisoformat (Rct.last_time_moved_utc r) = "" →
          ("" ∉ rct_min_set fromisoformat df_rct2 pkg)
          ∧ (r, NoClass) ∈ rct_table fromisoformat df_rct2 df_usg2 pkg).
Proof.
  split; [apply rct_key_empty_iff|]. split.
  - intros s Hs H1 H2.
    assert (_minute_key_from_rct_utc_to_kst fromisoformat (Some s)
            = PyStr.take 16 (PyStr.replace "T" " " s)) as ->.
    { unfold _minute_key_from_rct_utc_to_kst.
      apply truthy_true in Hs. by rewrite Hs, H1, H2. }
    split; [done|]. by apply take_replace_nonempty.
  - intros r Hr Hk. split; [apply min_set_nonempty_keys|].
    apply elem_of_rct_table. split; [done|].
    unfold rct_row_cls. by rewrite Hk.
Qed.

Lemma unparsable_timestamp_key_witness :
  (_minute_key_from_rct_utc_to_kst PyDatetime.fromisoformat (Some "N/A") = "N/A"
   ∧ _minute_key_from_rct_utc_to_kst PyDatetime.fromisoformat (Some "N/A") ≠ "")
  ∧ (("" ∉ rct_min_set PyDatetime.fromisoformat Demo.df_rct_null "app.demo")
     ∧ (Demo.task "9" None None, NoClass)
         ∈ rct_table PyDatetime.fromisoformat Demo.df_rct_null Demo.df_usg "app.demo").
Proof.
  pose proof (unparsable_timestamp_key PyDatetime.fromisoformat
                Demo.df_rct_null Demo.df_usg "app.demo") as (_ & Hfall & Hrow).
  split.
  - apply (Hfall "N/A"); [discriminate|reflexivity|reflexivity].
  - apply (Hrow (Demo.task "9" None None)); [|reflexivity].
    decide_by_compute.
Defined.

(** C4 as stated fails: the time stamp ["garbage"] is rejected by the parser,
    yet its minute key is ["garbage"], the key is in the minute set of the
    package, it is the most recent one there, and the row is classed red. *)
Lemma unparsable_timestamp_is_bucketed :
  PyDatetime.fromisoformat "garbage" = None
  ∧ PyDatetime.fromisoformat (PyStr.replace " " "T" "garbage") = None
  ∧ _minute_key_from_rct_utc_to_kst PyDatetime.fromisoformat (Some "garbage") = "garbage"
  ∧ "garbage" ∈ rct_min_set PyDatetime.fromisoformat Demo.df_rct_garbage "app.demo"
  ∧ rct_table PyDatetime.fromisoformat Demo.df_rct_garbage Demo.df_usg "app.demo"
    = [(Demo.task "7" (Some "2024-01-01T01:12:00+00:00") None, NoClass);
       (Demo.task "8" (Some "2024-01-01T01:05:00+00:00") None, Blue);
       (Demo.task "9" (Some "garbage") None, Red)].
Proof.
  repeat split; vm_compute; reflexivity.
Qed.

(** ** Claims on the order of the rows *)

(** C10: the UsageStats rows of a package are a rearrangement of its rows
    in the frame in which the displayed time stamps (empty for a row
    without one) never increase, whatever the order of the frame; the
    RecentTasks rows are the rows of the package in frame order. *)
Theorem tables_row_order
    (fromisoformat : string → option PyDatetime.datetime)
    (df_rct2 : list Rct.row) (df_usg2 : list Usg.row) (pkg : string) :
  let shown r := PyStr.str_or_empty (Usg.last_time_kst r) in
  (usg_table fromisoformat df_rct2 df_usg2 pkg).*1 ≡ₚ sub_u df_usg2 pkg
  ∧ StronglySorted (λ r1 r2, String.le (shown r2) (shown r1))
      (usg_table fromisoformat df_rct2 df_usg2 pkg).*1
  ∧ (rct_table fromisoformat df_rct2 df_usg2 pkg).*1
    = filter (λ r, Rct.pkg2 r = pkg) df_rct2.
Proof.
  intros shown. rewrite usg_table_rows, rct_table_rows. split; [|split].
  - apply sort_values_desc_Permutation.
  - apply sort_values_desc_sorted.
  - reflexivity.
Qed.

(** ** Characters and case *)

Lemma isspace_not_digit c : PyStr.isspace c = true → PyStr.isdigit c = false.
Proof. destruct c as [[] [] [] [] [] [] [] []]; vm_compute; congruence. Qed.

Lemma isdigit_lower_char c : PyStr.isdigit c = true → PyStr.lower_char c = c.
Proof. destruct c as [[] [] [] [] [] [] [] []]; vm_compute; congruence. Qed.

Lemma str_app_nil_l s : "" +:+ s = s.
Proof. reflexivity. Qed.

Lemma str_app_cons c s t : String c s +:+ t = String c (s +:+ t).
Proof. reflexivity. Qed.

Lemma str_app_nil_r s : s +:+ "" = s.
Proof. induction s as [|c s IH]; [done|]. by rewrite str_app_cons, IH. Qed.

Lemma str_app_assoc s t u : s +:+ (t +:+ u) = (s +:+ t) +:+ u.
Proof. induction s as [|c s IH]; [done|]. by rewrite !str_app_cons, IH. Qed.

Lemma str_app_length s t :
  String.length (s +:+ t) = String.length s + String.length t.
Proof. induction s as [|c s IH]; [done|]. rewrite str_app_cons. simpl. by rewrite IH. Qed.

Lemma drop_app_length pre suffix :
  PyStr.drop (String.length pre) (pre +:+ suffix) = suffix.
Proof. induction pre as [|c pre IH]; [by destruct suffix|]. exact IH. Qed.

Lemma take_drop n s : PyStr.take n s +:+ PyStr.drop n s = s.
Proof.
  revert s. induction n as [|n IH]; intros [|c s]; try done.
  simpl. by rewrite str_app_cons, IH.
Qed.

(** [endswith] holds exactly of the strings that are something followed by
    the suffix. *)
Lemma endswith_spec s suffix :
  PyStr.endswith s suffix = true ↔ ∃ pre, s = pre +:+ suffix.
Proof.
  unfold PyStr.endswith. rewrite andb_true_iff, Nat.leb_le, String.eqb_eq. split.
  - intros [_ Hd].
    exists (PyStr.take (String.length s - String.length suffix) s).
    pose proof (take_drop (String.length s - String.length suffix) s) as H.
    rewrite Hd in H. done.
  - intros [pre ->]. rewrite str_app_length. split; [lia|].
    replace (String.length pre + String.length suffix - String.length suffix)
      with (String.length pre) by lia.
    apply drop_app_length.
Qed.

Lemma lower_app s t : PyStr.lower (s +:+ t) = PyStr.lower s +:+ PyStr.lower t.
Proof.
  induction s as [|c s IH]; [done|].
  rewrite str_app_cons. simpl. by rewrite IH, str_app_cons.
Qed.

Lemma lower_digits_of s : PyStr.lower (PyStr.digits_of s) = PyStr.digits_of s.
Proof.
  induction s as [|c s IH]; [done|]. simpl.
  destruct (PyStr.isdigit c) eqn:Hc; [|done].
  simpl. by rewrite IH, isdigit_lower_char.
Qed.

Lemma truthy_lower s : PyStr.truthy (PyStr.lower s) = PyStr.truthy s.
Proof. by destruct s. Qed.

Lemma digits_of_lstrip s : PyStr.digits_of (PyStr.lstrip s) = PyStr.digits_of s.
Proof.
  induction s as [|c s IH]; [done|]. simpl.
  destruct (PyStr.isspace c) eqn:Hc; [|done].
  by rewrite (isspace_not_digit c Hc).
Qed.

Lemma digits_of_rstrip s : PyStr.digits_of (PyStr.rstrip s) = PyStr.digits_of s.
Proof.
  induction s as [|c s IH]; [done|]. simpl.
  destruct (PyStr.isspace c) eqn:Hc; simpl.
  - rewrite (isspace_not_digit c Hc).
    destruct (PyStr.truthy (PyStr.rstrip s)) eqn:Hr; simpl.
    + by rewrite (isspace_not_digit c Hc).
    + apply truthy_false in Hr. by rewrite <- IH, Hr.
  - by rewrite IH.
Qed.

Lemma digits_of_strip s : PyStr.digits_of (PyStr.strip s) = PyStr.digits_of s.
Proof. unfold PyStr.strip. by rewrite digits_of_rstrip, digits_of_lstrip. Qed.

Lemma lower_digit_candidates s :
  PyStr.lower <$> digit_candidates (PyStr.digits_of s)
  = digit_candidates (PyStr.digits_of s).
Proof.
  unfold digit_candidates, exts. simpl.
  rewrite !lower_app, !lower_digits_of. reflexivity.
Qed.

(** ** Snapshot score *)

Lemma foldl_score (f : Rct.row → bool) (rows : list Rct.row) (a : Z) :
  foldl (λ score r, if f r then (score + 1)%Z else score) a rows
  = (a + Z.of_nat (length (filter (λ r, f r = true) rows)))%Z.
Proof.
  revert a. induction rows as [|r rows IH]; intros a; simpl; [lia|].
  rewrite IH, filter_cons. destruct (f r) eqn:Hr.
  - rewrite decide_True by done. simpl. lia.
  - rewrite decide_False by done. lia.
Qed.

Lemma snapshot_score_count snap_index df_rct2 pkg :
  _snapshot_score_for_pkg snap_index df_rct2 pkg
  = Z.of_nat (length (filter (λ r, row_scores snap_index r = true) (sub_r df_rct2 pkg))).
Proof.
  unfold _snapshot_score_for_pkg.
  destruct (sub_r df_rct2 pkg) as [|r rows] eqn:Hsub; [done|].
  by rewrite foldl_score.
Qed.

(** C8: the snapshot score of a package is the number of its RecentTasks
    rows for which the search finds a snapshot, each row counting once; it
    lies between 0 and the number of RecentTasks rows of the package.  The
    UsageStats frame is no argument of the score, and a package without
    RecentTasks rows, such as one met only in the usage log, has score 0. *)
Theorem snapshot_score_bounded
    (snap_index : list (string * Path)) (df_rct2 : list Rct.row) (pkg : string) :
  _snapshot_score_for_pkg snap_index df_rct2 pkg
    = Z.of_nat (length (filter (λ r, row_scores snap_index r = true) (sub_r df_rct2 pkg)))
  ∧ (0 ≤ _snapshot_score_for_pkg snap_index df_rct2 pkg
       ≤ Z.of_nat (length (sub_r df_rct2 pkg)))%Z
  ∧ ((∀ r, r ∈ df_rct2 → Rct.pkg2 r ≠ pkg) →
     _snapshot_score_for_pkg snap_index df_rct2 pkg = 0%Z).
Proof.
  split; [apply snapshot_score_count|]. split.
  - rewrite snapshot_score_count.
    pose proof (length_filter (λ r, row_scores snap_index r = true) (sub_r df_rct2 pkg)).
    lia.
  - intros Hnone. unfold _snapshot_score_for_pkg.
    destruct (sub_r df_rct2 pkg) as [|r rows] eqn:Hsub; [done|].
    assert (Hr : r ∈ sub_r df_rct2 pkg) by (rewrite Hsub; by left).
    apply list_elem_of_filter in Hr as [Hp Hr]. by apply Hnone in Hr.
Qed.

Lemma snapshot_score_bounded_witness :
  _snapshot_score_for_pkg (index_snapshots [Demo.shot_42; Demo.none_file])
    [Demo.task_42] "a.usage.only" = 0%Z
  ∧ "a.usage.only" ∈ pkgs (index_snapshots [Demo.shot_42; Demo.none_file])
                          [Demo.task_42] [Demo.usage_only].
Proof.
  split.
  - apply (snapshot_score_bounded (index_snapshots [Demo.shot_42; Demo.none_file])
             [Demo.task_42] "a.usage.only").
    intros r ->%list_elem_of_singleton. discriminate.
  - decide_by_compute.
Defined.

(** ** The two snapshot searches *)

Lemma dict_mem_get {V} (d : list (string * V)) k :
  dict_mem d k = true ↔ is_Some (dict_get d k).
Proof. unfold dict_mem. apply bool_decide_eq_true. Qed.

Lemma any_key_endswith_first snap_index cand :
  any_key_endswith (snap_index.*1) cand = true
  ↔ is_Some (first_endswith snap_index cand).
Proof.
  induction snap_index as [|[key path] idx IH]; simpl.
  - split; [done|]. by intros [? ?].
  - destruct (PyStr.endswith key cand); [|done]. split; eauto.
Qed.

(** The boolean loop on the lower-cased candidates finds something exactly
    when the path-returning loop does. *)
Lemma found_candidate_find snap_index candidates :
  found_candidate snap_index (PyStr.lower <$> candidates) = true
  ↔ is_Some (find_candidate snap_index candidates).
Proof.
  induction candidates as [|cand cands IH]; simpl.
  - split; [done|]. by intros [? ?].
  - destruct (dict_mem snap_index (PyStr.lower cand)) eqn:Hm.
    + apply dict_mem_get in Hm as [p ->]. split; eauto.
    + assert (dict_get snap_index (PyStr.lower cand) = None) as ->.
      { apply eq_None_not_Some. intros H. apply dict_mem_get in H. congruence. }
      destruct (any_key_endswith _ _) eqn:He.
      * apply any_key_endswith_first in He as [p ->]. split; eauto.
      * assert (first_endswith snap_index (PyStr.lower cand) = None) as ->.
        { apply eq_None_not_Some. intros H. apply any_key_endswith_first in H.
          congruence. }
        exact IH.
Qed.

Lemma lower_candidates_of name s :
  PyStr.lower <$> candidates_of name (PyStr.digits_of s)
  = candidates_of (PyStr.lower name) (PyStr.digits_of s).
Proof.
  unfold candidates_of. rewrite fmap_app, truthy_lower. f_equal.
  - by destruct (PyStr.truthy name).
  - destruct (PyStr.truthy _); [|done]. apply lower_digit_candidates.
Qed.

Lemma image_digits r :
  PyStr.digits_of (PyStr.strip (PyStr.str (Rct.task_id r)))
  = PyStr.digits_of (PyStr.str_or_empty (Rct.task_id r)).
Proof. rewrite digits_of_strip. by destruct (Rct.task_id r). Qed.

(** Where the snapshot name is stored (the cell is not NULL) the scoring
    loop counts a row exactly when the image loop finds a path for it. *)
Lemma row_scores_named snap_index r n :
  Rct.snapshot_file r = Some n →
  row_scores snap_index r = true ↔ is_Some (find_snapshot snap_index r).
Proof.
  intros Hn. unfold row_scores, find_snapshot, image_candidates.
  rewrite Hn, image_digits. simpl PyStr.str. simpl PyStr.str_or_empty.
  set (digits := PyStr.digits_of _).
  rewrite <- found_candidate_find. subst digits. rewrite lower_candidates_of.
  destruct (PyStr.truthy (PyStr.lower (PyStr.strip n))
            && dict_mem snap_index (PyStr.lower (PyStr.strip n))) eqn:Hfast; [|done].
  apply andb_true_iff in Hfast as [Ht Hm].
  unfold candidates_of. rewrite Ht. simpl. by rewrite Hm.
Qed.

(** The image loop is the matcher of the specification on the trimmed cell
    text and the task id. *)
Lemma list_find_dict_get (snap_index : list (string * Path)) k :
  dict_get snap_index k
  = (λ x, x.2.2) <$> list_find (λ kv, kv.1 = k) snap_index.
Proof.
  induction snap_index as [|[key path] idx IH]; simpl; [done|].
  destruct (String.eqb_spec key k) as [->|Hne].
  - by rewrite decide_True.
  - rewrite decide_False by done. rewrite IH.
    by destruct (list_find _ idx) as [[? [? ?]]|].
Qed.

Lemma list_find_first_endswith (snap_index : list (string * Path)) lc :
  first_endswith snap_index lc
  = (λ x, x.2.2) <$> list_find (λ kv, PyStr.endswith kv.1 lc = true) snap_index.
Proof.
  induction snap_index as [|[key path] idx IH]; simpl; [done|].
  destruct (PyStr.endswith key lc) eqn:He.
  - by rewrite decide_True.
  - rewrite decide_False by congruence. rewrite IH.
    by destruct (list_find _ idx) as [[? [? ?]]|].
Qed.

Lemma find_candidate_spec snap_index candidates :
  find_candidate snap_index candidates
  = head (omap (spec_resolve snap_index) candidates).
Proof.
  induction candidates as [|cand cands IH]; simpl; [done|].
  unfold spec_resolve at 1.
  rewrite list_find_dict_get, list_find_first_endswith.
  destruct (list_find (λ kv, kv.1 = _) snap_index) as [[? [? ?]]|]; simpl; [done|].
  destruct (list_find _ snap_index) as [[? [? ?]]|]; simpl; [done|].
  exact IH.
Qed.

Lemma find_snapshot_named snap_index r n :
  Rct.snapshot_file r = Some n →
  find_snapshot snap_index r
  = spec_matcher snap_index
      (if PyStr.truthy (PyStr.strip n) then Some (PyStr.strip n) else None)
      (PyStr.str_or_empty (Rct.task_id r)).
Proof.
  intros Hn. unfold find_snapshot, spec_matcher. rewrite find_candidate_spec.
  f_equal. f_equal. unfold image_candidates, spec_candidates, candidates_of.
  rewrite Hn, image_digits. simpl PyStr.str.
  by destruct (PyStr.truthy (PyStr.strip n)).
Qed.

(** C9 fails on the code: for a task whose [snapshot_file] is NULL the image
    loop searches for the text [None], which the scoring loop, reading the
    cell as [""], does not; against a directory holding a file named
    [none] the image loop finds a path and the scoring loop counts nothing. *)
Theorem searches_disagree_on_null_name :
  Rct.snapshot_file Demo.task_42 = None
  ∧ row_scores (index_snapshots [Demo.none_file]) Demo.task_42 = false
  ∧ find_snapshot (index_snapshots [Demo.none_file]) Demo.task_42 = Some Demo.none_file
  ∧ _snapshot_score_for_pkg (index_snapshots [Demo.none_file]) [Demo.task_42] "app.demo" = 0%Z
  ∧ imgs (index_snapshots [Demo.none_file]) (sub_r [Demo.task_42] "app.demo")
    = [Demo.none_file].
Proof. repeat split; vm_compute; reflexivity. Qed.

(** C5 fails on the code: for a task whose [snapshot_file] is NULL the
    candidates of the image loop start with the text [None], before the
    eight names made from the digits of the task id; with the reduced
    snapshot of task 42 and a file named [none] in the directory the loop
    returns the latter, where the matcher of the specification, given no
    stored name, returns the snapshot. *)
Theorem null_name_is_a_candidate :
  Rct.snapshot_file Demo.task_42 = None
  ∧ image_candidates Demo.task_42
    = ["None"; "42.jpg"; "42.png"; "42.webp"; "42.jpeg";
       "42_reduced.jpg"; "42_reduced.png"; "42_reduced.webp"; "42_reduced.jpeg"]
  ∧ spec_candidates None "42"
    = ["42.jpg"; "42.png"; "42.webp"; "42.jpeg";
       "42_reduced.jpg"; "42_reduced.png"; "42_reduced.webp"; "42_reduced.jpeg"]
  ∧ find_snapshot (index_snapshots [Demo.shot_42; Demo.none_file]) Demo.task_42
    = Some Demo.none_file
  ∧ spec_matcher (index_snapshots [Demo.shot_42; Demo.none_file]) None "42"
    = Some Demo.shot_42.
Proof. repeat split; vm_compute; reflexivity. Qed.

(** ** Ranking *)

Global Instance rank_le_trans score : Transitive (rank_le score).
Proof.
  intros x y z [Hxy|[Hxy Hxy']] [Hyz|[Hyz Hyz']]; unfold rank_le.
  - left. lia.
  - left. lia.
  - left. lia.
  - right. split; [lia|]. by etrans.
Qed.

Global Instance rank_le_total score : Total (rank_le score).
Proof.
  intros x y. unfold rank_le.
  destruct (Z.lt_total (- score x) (- score y)) as [H|[H|H]]; [by left; left| |by right; left].
  destruct (total String.le x y); [left|right]; right; split; done || lia.
Qed.

Lemma StronglySorted_lookup {A} (R : relation A) (l : list A) i j x y :
  StronglySorted R l → i < j → l !! i = Some x → l !! j = Some y → R x y.
Proof.
  intros Hl. revert i j. induction Hl as [|a l Hl IH Ha]; intros i j Hij Hi Hj.
  - by rewrite lookup_nil in Hi.
  - destruct j as [|j]; [lia|]. simpl in Hj. destruct i as [|i]; simpl in Hi.
    + injection Hi as ->. rewrite Forall_forall in Ha.
      apply Ha. by eapply list_elem_of_lookup_2.
    + apply (IH i j); [lia|done..].
Qed.

Lemma elem_of_pkgs_all df_rct2 df_usg2 p :
  p ∈ pkgs_all df_rct2 df_usg2
  ↔ p ∈ Rct.pkg2 <$> df_rct2 ∨ p ∈ Usg.pkg2 <$> df_usg2.
Proof.
  unfold pkgs_all. rewrite merge_sort_Permutation, elem_of_elements.
  by rewrite elem_of_union, !elem_of_list_to_set.
Qed.

Lemma elem_of_pkgs snap_index df_rct2 df_usg2 p :
  p ∈ pkgs snap_index df_rct2 df_usg2
  ↔ p ∈ Rct.pkg2 <$> df_rct2 ∨ p ∈ Usg.pkg2 <$> df_usg2.
Proof. unfold pkgs. rewrite merge_sort_Permutation. apply elem_of_pkgs_all. Qed.

Lemma NoDup_pkgs snap_index df_rct2 df_usg2 :
  NoDup (pkgs snap_index df_rct2 df_usg2).
Proof.
  unfold pkgs, pkgs_all. rewrite !merge_sort_Permutation. apply NoDup_elements.
Qed.

(** C6: the ranked list holds every package of either frame once, and for
    two packages X and Y of it, X stands before Y whenever the score of X
    is greater, whatever their names, and whenever the scores are equal and
    the name of X is the smaller one. *)
Theorem ranking_order
    (snap_index : list (string * Path))
    (df_rct2 : list Rct.row) (df_usg2 : list Usg.row) (X Y : string) :
  let score := _snapshot_score_for_pkg snap_index df_rct2 in
  let ranked := pkgs snap_index df_rct2 df_usg2 in
  X ∈ ranked → Y ∈ ranked →
  (score Y < score X)%Z ∨ (score X = score Y ∧ X ≠ Y ∧ String.le X Y) →
  NoDup ranked
  ∧ ∃ i j, i < j ∧ ranked !! i = Some X ∧ ranked !! j = Some Y.
Proof.
  intros score ranked HX HY Hord.
  split; [apply NoDup_pkgs|].
  apply list_elem_of_lookup_1 in HX as [i Hi].
  apply list_elem_of_lookup_1 in HY as [j Hj].
  exists i, j. split; [|done].
  assert (Hsorted : StronglySorted (rank_le score) ranked).
  { apply StronglySorted_merge_sort; apply _. }
  destruct (Nat.lt_total i j) as [Hlt|[->|Hgt]]; [done|..].
  - assert (X = Y) as -> by congruence.
    destruct Hord as [?|(_ & Hne & _)]; [lia|done].
  - pose proof (StronglySorted_lookup _ _ _ _ _ _ Hsorted Hgt Hj Hi) as HYX.
    unfold rank_le in HYX. fold score in HYX.
    destruct Hord as [Hs|(Hs & Hne & Hle)].
    + destruct HYX as [?|[? _]]; lia.
    + destruct HYX as [?|[_ Hle']]; [lia|].
      exfalso. apply Hne. by apply (anti_symm String.le).
Qed.

Lemma ranking_order_witness :
  NoDup (pkgs (index_snapshots [Demo.shot_42]) [Demo.task_42] [Demo.usage_only])
  ∧ ∃ i j, i < j
      ∧ pkgs (index_snapshots [Demo.shot_42]) [Demo.task_42] [Demo.usage_only] !! i
        = Some "app.demo"
      ∧ pkgs (index_snapshots [Demo.shot_42]) [Demo.task_42] [Demo.usage_only] !! j
        = Some "a.usage.only".
Proof.
  apply (ranking_order (index_snapshots [Demo.shot_42]) [Demo.task_42]
           [Demo.usage_only] "app.demo" "a.usage.only").
  - decide_by_compute.
  - decide_by_compute.
  - left. vm_compute. reflexivity.
Defined.

(** ** The patterns of [_extract_package] *)

Lemma str_app_eq_nil s t : s +:+ t = "" → s = "" ∧ t = "".
Proof. destruct s; [done|]. by rewrite str_app_cons. Qed.

Lemma str_app_same_length s1 t1 s2 t2 :
  s1 +:+ t1 = s2 +:+ t2 → String.length s1 = String.length s2 →
  s1 = s2 ∧ t1 = t2.
Proof.
  revert s2. induction s1 as [|c s1 IH]; intros [|c2 s2]; simpl; try done.
  rewrite !str_app_cons. intros [= -> H] [= Hl].
  destruct (IH _ H Hl) as [-> ->]. done.
Qed.

Section PlusThen.

Variable cls : ascii → bool.
Variable next : string → bool.

Lemma plus_then_sound s g :
  Re.plus_then cls next s = Some g →
  ∃ rest, s = g +:+ rest ∧ g ≠ "" ∧ str_forall cls g = true ∧ next rest = true.
Proof.
  revert g. induction s as [|c s IH]; intros g; simpl; [done|].
  destruct (cls c) eqn:Hc; [|done].
  destruct (Re.plus_then cls next s) as [g0|] eqn:Hrec.
  - intros [= <-]. destruct (IH g0 eq_refl) as (rest & -> & _ & Hall & Hnext).
    exists rest. rewrite str_app_cons. simpl. by rewrite Hc.
  - destruct (next s) eqn:Hn; [|done]. intros [= <-].
    exists s. simpl. by rewrite Hc.
Qed.

Lemma plus_then_complete g rest :
  g ≠ "" → str_forall cls g = true → next rest = true →
  is_Some (Re.plus_then cls next (g +:+ rest)).
Proof.
  induction g as [|c g IH]; [done|]. intros _ Hall Hnext.
  simpl in Hall. apply andb_true_iff in Hall as [Hc Hall].
  rewrite str_app_cons. simpl. rewrite Hc.
  destruct g as [|c' g].
  - rewrite str_app_nil_l.
    destruct (Re.plus_then cls next rest); [by eexists|].
    rewrite Hnext. by eexists.
  - destruct IH as [g0 ->]; [done..|]. by eexists.
Qed.

Lemma plus_then_longest s g g' rest' :
  Re.plus_then cls next s = Some g →
  s = g' +:+ rest' → str_forall cls g' = true → next rest' = true →
  (String.length g' ≤ String.length g)%nat.
Proof.
  revert g g'. induction s as [|c s IH]; intros g g'; simpl; [done|].
  destruct (cls c) eqn:Hc; [|done].
  destruct g' as [|c' g']; [simpl; lia|].
  rewrite str_app_cons. intros Hg [= <- ->] Hall Hnext.
  simpl in Hall. apply andb_true_iff in Hall as [_ Hall].
  destruct (Re.plus_then cls next (g' +:+ rest')) as [g0|] eqn:Hrec.
  - injection Hg as <-. simpl.
    destruct g' as [|c'' g']; [simpl; lia|].
    pose proof (IH g0 (String c'' g') eq_refl eq_refl Hall Hnext). lia.
  - destruct g' as [|c'' g']; [destruct (next _); simplify_eq; simpl; lia|].
    destruct (plus_then_complete (String c'' g') rest') as [? Hsome]; [done..|].
    congruence.
Qed.

End PlusThen.

Lemma re_search_sound (m : string → option string) s g :
  Re.re_search m s = Some g →
  ∃ pre rest, s = pre +:+ rest ∧ m rest = Some g
    ∧ ∀ pre' rest', s = pre' +:+ rest' →
        (String.length pre' < String.length pre)%nat → m rest' = None.
Proof.
  induction s as [|c s IH].
  - simpl. destruct (m "") eqn:Hm; [|done]. intros [= <-].
    exists "", "". repeat split; [done|]. simpl. lia.
  - simpl. destruct (m (String c s)) eqn:Hm.
    + intros [= <-]. exists "", (String c s). repeat split; [done|]. simpl. lia.
    + intros Hrec. destruct (IH Hrec) as (pre & rest & -> & Hrest & Hleft).
      exists (String c pre), rest. rewrite str_app_cons. repeat split; [done|].
      intros [|c' pre'] rest'.
      * rewrite str_app_nil_l. by intros <-.
      * rewrite str_app_cons. simpl. intros [= <- H] Hlen.
        apply (Hleft pre' rest' H). lia.
Qed.

Lemma re_search_none (m : string → option string) pre rest :
  Re.re_search m (pre +:+ rest) = None → m rest = None.
Proof.
  induction pre as [|c pre IH].
  - rewrite str_app_nil_l. destruct rest as [|a rest]; simpl.
    + by destruct (m "").
    + by destruct (m (String a rest)).
  - rewrite str_app_cons. simpl.
    destruct (m (String c (pre +:+ rest))); [done|]. exact IH.
Qed.

Lemma next_in_inv cs s :
  Re.next_in cs s = true → ∃ c post, s = String c post ∧ c ∈ cs.
Proof.
  destruct s as [|c post]; simpl; [done|]. intros H.
  exists c, post. split; [done|].
  apply existsb_exists in H as (x & Hx & ->%Ascii.eqb_eq).
  by apply list_elem_of_In.
Qed.

Lemma next_in_cons cs c post : c ∈ cs → Re.next_in cs (String c post) = true.
Proof.
  intros Hc. simpl. apply existsb_exists. exists c.
  split; [by apply list_elem_of_In|apply Ascii.eqb_refl].
Qed.

Lemma rstrip_last s g c :
  PyStr.rstrip s = g +:+ String c "" → PyStr.isspace c = false.
Proof.
  revert g. induction s as [|a s IH]; intros g; simpl.
  - intros H. symmetry in H. by apply str_app_eq_nil in H as [_ ?].
  - destruct (PyStr.isspace a && negb (PyStr.truthy (PyStr.rstrip s))) eqn:Hdrop.
    + intros H. symmetry in H. by apply str_app_eq_nil in H as [_ ?].
    + destruct g as [|a' g].
      * rewrite str_app_nil_l. intros [= -> Hr]. rewrite Hr in Hdrop.
        simpl in Hdrop. by rewrite andb_true_r in Hdrop.
      * rewrite str_app_cons. intros [= _ Hr]. by apply (IH g).
Qed.

Lemma brace_component_sound rest g :
  Re.brace_component rest = Some g →
  ∃ post, rest = "{" +:+ g +:+ "/" +:+ post ∧ Ident g.
Proof.
  destruct rest as [|c rest]; simpl; [done|].
  destruct (Ascii.eqb_spec c "{") as [->|]; [|done].
  intros (tail & -> & Hne & Hall & Hnext)%plus_then_sound.
  apply next_in_inv in Hnext as (c & post & -> & ->%list_elem_of_singleton).
  by exists post.
Qed.

Lemma brace_component_complete g post :
  Ident g → is_Some (Re.brace_component ("{" +:+ g +:+ "/" +:+ post)).
Proof.
  intros [Hne Hall]. rewrite str_app_cons, str_app_nil_l. simpl.
  apply plus_then_complete; [done..|].
  rewrite str_app_cons. apply next_in_cons. by left.
Qed.

Lemma search_brace_some s g :
  Re.re_search Re.brace_component s = Some g → brace_first s g.
Proof.
  intros (pre & rest & -> & Hm & Hleft)%re_search_sound.
  apply brace_component_sound in Hm as (post & -> & Hg).
  exists pre, post. split; [done|]. split; [done|].
  intros pre' g' post' Heq Hg'.
  destruct (decide (String.length pre' < String.length pre)%nat) as [Hlt|]; [|lia].
  pose proof (Hleft pre' _ Heq Hlt) as Hnone.
  destruct (brace_component_complete g' post' Hg') as [? Hsome]. congruence.
Qed.

Lemma search_brace_none s :
  Re.re_search Re.brace_component s = None → no_brace s.
Proof.
  intros Hs pre g post -> Hg. apply re_search_none in Hs.
  destruct (brace_component_complete g post Hg) as [? Hsome]. congruence.
Qed.

Lemma leading_some s g : Re.leading_token s = Some g → leading s g.
Proof.
  intros (rest & -> & Hne & Hall & Hnext)%plus_then_sound.
  apply next_in_inv in Hnext as (c & post & -> & Hc).
  exists c, post. split; [done|]. split; [done|].
  apply elem_of_cons in Hc as [-> | ->%list_elem_of_singleton]; auto.
Qed.

Lemma leading_none s : Re.leading_token s = None → no_leading s.
Proof.
  intros Hs g (c & post & -> & [Hne Hall] & Hc).
  destruct (plus_then_complete Re.is_ident (Re.next_in ["/"; " "]%char) g (String c post))
    as [? Hsome]; [done..| |unfold Re.leading_token in Hs; congruence].
  apply next_in_cons. destruct Hc as [->| ->]; [by left|by right; left].
Qed.

Lemma pure_some ra g :
  Re.pure_package (PyStr.strip ra) = Some g →
  Ident (PyStr.strip ra) ∧ g = PyStr.strip ra.
Proof.
  intros (rest & Heq & Hne & Hall & Hend)%plus_then_sound.
  destruct rest as [|c [|c' rest]]; simpl in Hend; [| |done].
  - rewrite str_app_nil_r in Heq. by subst g.
  - apply Ascii.eqb_eq in Hend as ->.
    unfold PyStr.strip in Heq. by apply rstrip_last in Heq.
Qed.

Lemma pure_none s : Re.pure_package s = None → ¬ Ident s.
Proof.
  intros Hs [Hne Hall].
  destruct (plus_then_complete Re.is_ident Re.at_end s "") as [? Hsome]; [done..|].
  rewrite str_app_nil_r in Hsome. unfold Re.pure_package in Hs. congruence.
Qed.

Lemma dotted_prefix_complete g post :
  Ident g → is_Some (Re.dotted_prefix (g +:+ "." +:+ post)).
Proof.
  intros [Hne Hall]. apply plus_then_complete; [done..|].
  rewrite str_app_cons. apply next_in_cons. by left.
Qed.

Lemma search_dotted_some s g :
  Re.re_search Re.dotted_prefix s = Some g → dotted_first s g.
Proof.
  intros (pre & rest & -> & Hm & Hleft)%re_search_sound.
  pose proof Hm as (tail & -> & Hne & Hall & Hnext)%plus_then_sound.
  apply next_in_inv in Hnext as (c & post & -> & ->%list_elem_of_singleton).
  exists pre, post. split; [done|]. split; [done|].
  intros pre' g' post' Heq Hg'.
  destruct (Nat.lt_total (String.length pre) (String.length pre')) as [?|[Hlen|Hlt]];
    [by left| |].
  - right. split; [done|].
    apply str_app_same_length in Heq as [_ Heq]; [|done].
    destruct Hg' as [_ Hall'].
    apply (plus_then_longest _ _ _ _ _ _ Hm Heq Hall').
    rewrite str_app_cons. apply next_in_cons. by left.
  - pose proof (Hleft pre' _ Heq Hlt) as Hnone.
    destruct (dotted_prefix_complete g' post' Hg') as [? Hsome]. congruence.
Qed.

Lemma search_dotted_none s :
  Re.re_search Re.dotted_prefix s = None → no_dotted s.
Proof.
  intros Hs pre g post -> Hg. apply re_search_none in Hs.
  destruct (dotted_prefix_complete g post Hg) as [? Hsome]. congruence.
Qed.

(** ** Claim on the resolution of the package *)

(** C7, as the code has it: for a task with a non-empty descriptor, trimmed
    to [s], the package is (a) the identifier inside the leftmost
    [{identifier/] of [s]; failing that (b) the identifier [s] starts with,
    ended by [/] or a blank; failing that (c) [s] itself when it is an
    identifier; failing that (d) the longest identifier followed by [.] at
    the leftmost place where one starts, that is, a run of identifier
    characters up to its last [.], not the text before the first [.] of
    [s]; when none applies the task is kept under the package [android]. *)
Theorem extract_package_priority (r : Rct.row) (ra : string) :
  Rct.real_activity r = Some ra → ra ≠ "" →
  let s := PyStr.strip ra in
  match _extract_package (Some ra) with
  | Some g =>
      Rct.pkg2 (Rct.with_package r) = g
      ∧ (brace_first s g
         ∨ (no_brace s ∧ leading s g)
         ∨ (no_brace s ∧ no_leading s ∧ Ident s ∧ g = s)
         ∨ (no_brace s ∧ no_leading s ∧ ¬ Ident s ∧ dotted_first s g))
  | None =>
      Rct.pkg2 (Rct.with_package r) = "android"
      ∧ no_brace s ∧ no_leading s ∧ ¬ Ident s ∧ no_dotted s
  end.
Proof.
  intros Hr Hne s.
  assert (Hpkg : Rct.pkg2 (Rct.with_package r)
                 = default "android" (_extract_package (Some ra))).
  { unfold Rct.pkg2, Rct.with_package. simpl. by rewrite Hr. }
  rewrite Hpkg. clear Hpkg. unfold _extract_package.
  apply truthy_true in Hne. rewrite Hne. cbn [negb]. fold s.
  destruct (Re.re_search Re.brace_component s) as [g|] eqn:Ha.
  { split; [done|]. left. by apply search_brace_some. }
  apply search_brace_none in Ha.
  destruct (Re.leading_token s) as [g|] eqn:Hb.
  { split; [done|]. right; left. split; [done|]. by apply leading_some. }
  apply leading_none in Hb.
  destruct (Re.pure_package s) as [g|] eqn:Hc.
  { split; [done|]. right; right; left. apply pure_some in Hc as [? ?]. done. }
  apply pure_none in Hc.
  destruct (Re.re_search Re.dotted_prefix s) as [g|] eqn:Hd.
  { split; [done|]. right; right; right. repeat split; try done.
    by apply search_dotted_some. }
  apply search_dotted_none in Hd. done.
Qed.

Lemma extract_package_priority_witness :
  Rct.pkg2 (Demo.task "1" None None) = "app.demo"
  ∧ (brace_first "app.demo/.Main" "app.demo"
     ∨ (no_brace "app.demo/.Main" ∧ leading "app.demo/.Main" "app.demo")
     ∨ (no_brace "app.demo/.Main" ∧ no_leading "app.demo/.Main"
        ∧ Ident "app.demo/.Main" ∧ "app.demo" = "app.demo/.Main")
     ∨ (no_brace "app.demo/.Main" ∧ no_leading "app.demo/.Main"
        ∧ ¬ Ident "app.demo/.Main" ∧ dotted_first "app.demo/.Main" "app.demo")).
Proof.
  exact (extract_package_priority
           {| Rct.task_id := Some "1"; Rct.real_activity := Some "app.demo/.Main";
              Rct.last_time_moved := None; Rct.last_time_moved_utc := None;
              Rct.snapshot_file := None; Rct.package := None |}
           "app.demo/.Main" eq_refl ltac:(discriminate)).
Defined.

(** C7 as stated fails in its last resort: for [com.foo.Bar$Inner] no
    earlier pattern applies, the text before the first [.] is [com], and
    the code answers [com.foo]. *)
Lemma last_resort_is_not_before_first_dot :
  Re.re_search Re.brace_component (PyStr.strip "com.foo.Bar$Inner") = None
  ∧ Re.leading_token (PyStr.strip "com.foo.Bar$Inner") = None
  ∧ Re.pure_package (PyStr.strip "com.foo.Bar$Inner") = None
  ∧ before_first_dot "com.foo.Bar$Inner" = "com"
  ∧ _extract_package (Some "com.foo.Bar$Inner") = Some "com.foo"
  ∧ _extract_package (Some "com.foo.Bar$Inner")
    ≠ Some (before_first_dot "com.foo.Bar$Inner").
Proof. repeat split; try (vm_compute; reflexivity). vm_compute. discriminate. Qed.

(** * Further properties of the report builder *)

(** ** The snapshot index ([index_snapshots]) *)

Lemma dict_get_set {V} k (v : V) d k' :
  dict_get (dict_set k v d) k' = if decide (k = k') then Some v else dict_get d k'.
Proof.
  induction d as [|[k0 v0] d IH]; simpl.
  - destruct (String.eqb_spec k k'); by case_decide.
  - destruct (String.eqb_spec k0 k) as [->|Hk0]; simpl.
    + destruct (String.eqb_spec k k'); by case_decide.
    + destruct (String.eqb_spec k0 k') as [->|Hk0']; [|exact IH].
      by rewrite decide_False by congruence.
Qed.

Lemma dict_set_keys {V} k (v : V) d :
  (dict_set k v d).*1 = if decide (k ∈ d.*1) then d.*1 else (d.*1 ++ [k])%list.
Proof.
  induction d as [|[k0 v0] d IH].
  - destruct (decide (k ∈ ([] : list (string * V)).*1)) as [Hin|_]; [|done].
    by apply elem_of_nil in Hin.
  - cbn [dict_set]. destruct (String.eqb_spec k0 k) as [->|Hk0].
    + destruct (decide (k ∈ ((k, v0) :: d).*1)) as [_|Hn]; [done|].
      exfalso. apply Hn. by left.
    + rewrite fmap_cons, IH. cbn [fst].
      destruct (decide (k ∈ d.*1)) as [Hin|Hin];
        destruct (decide (k ∈ ((k0, v0) :: d).*1)) as [Hin'|Hin']; try done.
      * exfalso. apply Hin'. by right.
      * exfalso. rewrite fmap_cons in Hin'.
        apply elem_of_cons in Hin' as [Heq|?]; [simpl in Heq; congruence|done].
Qed.

Lemma elem_of_dict_set {V} k (v : V) d k' v' :
  (k', v') ∈ dict_set k v d → (k', v') = (k, v) ∨ (k', v') ∈ d.
Proof.
  induction d as [|[k0 v0] d IH]; simpl.
  - intros ->%list_elem_of_singleton. by left.
  - destruct (String.eqb_spec k0 k) as [->|Hk0].
    + intros [->|Hin]%elem_of_cons; [by left|right; by right].
    + intros [->|Hin]%elem_of_cons; [right; by left|].
      destruct (IH Hin) as [?|?]; [by left|right; by right].
Qed.

Lemma index_snapshots_snoc entries q :
  index_snapshots (entries ++ [q])%list
  = if is_file q then dict_set (PyStr.lower (name q)) q (index_snapshots entries)
    else index_snapshots entries.
Proof. unfold index_snapshots. by rewrite foldl_app. Qed.

Lemma snoc_eq_middle {A} (l l1 l2 : list A) q p :
  (l ++ [q] = l1 ++ p :: l2)%list →
  (l2 = [] ∧ l = l1 ∧ q = p) ∨ ∃ l2', l2 = (l2' ++ [q])%list ∧ l = (l1 ++ p :: l2')%list.
Proof.
  destruct l2 as [|x l2' _] using rev_ind.
  - intros H.
    apply app_inj_tail in H as [-> ->]. by left.
  - intros H. rewrite app_comm_cons, app_assoc in H.
    apply app_inj_tail in H as [-> ->]. right. by exists l2'.
Qed.

Lemma index_snapshots_wf (entries : list Path) :
  NoDup (index_snapshots entries).*1
  ∧ ∀ k p, (k, p) ∈ index_snapshots entries →
      p ∈ entries ∧ is_file p = true ∧ k = PyStr.lower (name p).
Proof.
  induction entries as [|q entries [IHnd IHin]] using rev_ind.
  - split; [constructor|]. intros k p H. by apply elem_of_nil in H.
  - rewrite index_snapshots_snoc. destruct (is_file q) eqn:Hq.
    + split.
      * rewrite dict_set_keys. case_decide as Hk; [done|].
        apply NoDup_app. split; [done|]. split; [|apply NoDup_singleton].
        intros x Hx ->%list_elem_of_singleton. done.
      * intros k p [[= -> ->]|Hin]%elem_of_dict_set.
        -- split; [|done]. apply elem_of_app. right. by left.
        -- destruct (IHin k p Hin) as (? & ? & ?).
           split; [|done]. apply elem_of_app. by left.
    + split; [done|]. intros k p Hin. destruct (IHin k p Hin) as (? & ? & ?).
      split; [|done]. apply elem_of_app. by left.
Qed.

(** X1: the index has one entry per key; every entry is a regular file met
    in the walk, stored under its lower-cased name. *)
Theorem index_snapshots_invariant (entries : list Path) :
  NoDup (index_snapshots entries).*1
  ∧ ∀ k p, (k, p) ∈ index_snapshots entries →
      p ∈ entries ∧ is_file p = true ∧ k = PyStr.lower (name p).
Proof. apply index_snapshots_wf. Qed.

(** X2: looking a key up in the index gives the last regular file of the
    walk with that lower-cased name (the last one met wins), and nothing
    when there is none. *)
Theorem index_snapshots_last_wins (entries : list Path) (k : string) (p : Path) :
  dict_get (index_snapshots entries) k = Some p
  ↔ ∃ l1 l2, entries = (l1 ++ p :: l2)%list ∧ is_file p = true ∧ PyStr.lower (name p) = k
      ∧ ∀ q, q ∈ l2 → is_file q = true → PyStr.lower (name q) ≠ k.
Proof.
  revert p. induction entries as [|q entries IH] using rev_ind; intros p.
  - split; [done|]. intros (l1 & l2 & H & _). by destruct l1.
  - rewrite index_snapshots_snoc.
    destruct (decide (is_file q = true ∧ PyStr.lower (name q) = k)) as [[Hq Hk]|Hnot].
    + rewrite Hq, dict_get_set, decide_True by done. split.
      * intros [= <-]. exists entries, []. repeat split; try done.
        intros q' H. by apply elem_of_nil in H.
      * intros (l1 & l2 & Heq & Hp & Hpk & Hlast).
        apply snoc_eq_middle in Heq as [(-> & -> & ->)|(l2' & -> & ->)]; [done|].
        exfalso. apply (Hlast q); [|done..]. apply elem_of_app. right. by left.
    + assert (Hget : dict_get (if is_file q
                               then dict_set (PyStr.lower (name q)) q (index_snapshots entries)
                               else index_snapshots entries) k
                     = dict_get (index_snapshots entries) k).
      { destruct (is_file q) eqn:Hq; [|done].
        rewrite dict_get_set, decide_False; [done|]. intros Hk. by apply Hnot. }
      rewrite Hget, IH. split.
      * intros (l1 & l2 & -> & Hp & Hpk & Hlast).
        exists l1, (l2 ++ [q])%list. rewrite <- app_assoc. repeat split; try done.
        intros q' [Hq'| ->%list_elem_of_singleton]%elem_of_app; [by apply Hlast|].
        intros ? ?. by apply Hnot.
      * intros (l1 & l2 & Heq & Hp & Hpk & Hlast).
        apply snoc_eq_middle in Heq as [(-> & -> & ->)|(l2' & -> & ->)].
        { exfalso. by apply Hnot. }
        exists l1, l2'. repeat split; try done.
        intros q' Hq'. apply Hlast. apply elem_of_app. by left.
Qed.

Lemma dict_get_is_Some_keys {V} (d : list (string * V)) k :
  is_Some (dict_get d k) ↔ k ∈ d.*1.
Proof.
  induction d as [|[k0 v0] d IH]; simpl.
  - split; [by intros [? ?]|]. intros H. by apply elem_of_nil in H.
  - destruct (String.eqb_spec k0 k) as [->|Hk0].
    + split; [by left|by eexists].
    + rewrite IH. split; [by right|].
      intros [?|?]%elem_of_cons; [congruence|done].
Qed.

(** X3: a name is a key of the index exactly when some regular file of the
    walk has that name up to case; directories contribute nothing, and an
    empty walk gives an empty index. *)
Theorem index_snapshots_keys (entries : list Path) (k : string) :
  k ∈ (index_snapshots entries).*1
  ↔ ∃ p, p ∈ entries ∧ is_file p = true ∧ PyStr.lower (name p) = k.
Proof.
  induction entries as [|q entries IH] using rev_ind.
  - split; [intros H; by apply elem_of_nil in H|].
    intros (p & H & _). by apply elem_of_nil in H.
  - rewrite index_snapshots_snoc.
    assert (Hstep : k ∈ (if is_file q
                         then dict_set (PyStr.lower (name q)) q (index_snapshots entries)
                         else index_snapshots entries).*1
                    ↔ k ∈ (index_snapshots entries).*1
                      ∨ (is_file q = true ∧ PyStr.lower (name q) = k)).
    { destruct (is_file q).
      2: { split; [by left|]. by intros [?|[? _]]. }
      rewrite dict_set_keys. case_decide as Hin.
      - split; [by left|]. intros [?|[_ <-]]; done.
      - rewrite elem_of_app, list_elem_of_singleton.
        split; (intros [?|H]; [by left|right]); [by split|by destruct H]. }
    rewrite Hstep, IH. split.
    + intros [(p & Hp & ?)|[? ?]].
      * exists p. split; [|done]. apply elem_of_app. by left.
      * exists q. split; [|done]. apply elem_of_app. right. by left.
    + intros (p & [Hp| ->%list_elem_of_singleton]%elem_of_app & Hf & Hk).
      * left. by exists p.
      * by right.
Qed.

(** ** What the two snapshot searches find *)

Lemma dict_get_elem {V} (d : list (string * V)) k v :
  dict_get d k = Some v → (k, v) ∈ d.
Proof.
  induction d as [|[k0 v0] d IH]; simpl; [done|].
  destruct (String.eqb_spec k0 k) as [->|Hk0].
  - intros [= ->]. by left.
  - intros H. right. by apply IH.
Qed.

Lemma endswith_refl s : PyStr.endswith s s = true.
Proof. apply endswith_spec. by exists "". Qed.

Lemma first_endswith_Some items lc p :
  first_endswith items lc = Some p →
  ∃ key, (key, p) ∈ items ∧ PyStr.endswith key lc = true.
Proof.
  induction items as [|[key path] items IH]; simpl; [done|].
  destruct (PyStr.endswith key lc) eqn:He.
  - intros [= ->]. exists key. split; [by left|done].
  - intros (key' & Hin & He')%IH. exists key'. split; [by right|done].
Qed.

Lemma any_key_endswith_true keys cand :
  any_key_endswith keys cand = true
  ↔ ∃ key, key ∈ keys ∧ PyStr.endswith key cand = true.
Proof.
  induction keys as [|key keys IH]; simpl.
  - split; [done|]. intros (key & H & _). by apply elem_of_nil in H.
  - destruct (PyStr.endswith key cand) eqn:He.
    + split; [|done]. intros _. exists key. split; [by left|done].
    + rewrite IH. split.
      * intros (key' & Hin & He'). exists key'. split; [by right|done].
      * intros (key' & [->|Hin]%elem_of_cons & He'); [congruence|].
        by exists key'.
Qed.

Lemma found_candidate_true snap_index candidates :
  found_candidate snap_index candidates = true
  ↔ ∃ cand key, cand ∈ candidates ∧ key ∈ snap_index.*1
                ∧ PyStr.endswith key cand = true.
Proof.
  induction candidates as [|cand cands IH]; simpl.
  - split; [done|]. intros (cand & key & H & _). by apply elem_of_nil in H.
  - destruct (dict_mem snap_index cand) eqn:Hm.
    { split; [|done]. intros _. exists cand, cand.
      split; [by left|]. split; [|apply endswith_refl].
      by apply dict_get_is_Some_keys, dict_mem_get. }
    destruct (any_key_endswith _ cand) eqn:He.
    { split; [|done]. intros _.
      apply any_key_endswith_true in He as (key & Hin & Hk).
      exists cand, key. split; [by left|done]. }
    rewrite IH. split.
    + intros (c & key & Hc & Hk). exists c, key. split; [by right|done].
    + intros (c & key & [->|Hc]%elem_of_cons & Hin & Hk); [|by exists c, key].
      assert (any_key_endswith (snap_index.*1) cand = true) as Hany
        by (apply any_key_endswith_true; by exists key).
      congruence.
Qed.

Lemma find_candidate_Some snap_index candidates p :
  find_candidate snap_index candidates = Some p →
  ∃ cand key, cand ∈ candidates ∧ (key, p) ∈ snap_index
              ∧ PyStr.endswith key (PyStr.lower cand) = true.
Proof.
  induction candidates as [|cand cands IH]; simpl; [done|].
  destruct (dict_get snap_index (PyStr.lower cand)) as [p0|] eqn:Hg.
  { intros [= ->]. exists cand, (PyStr.lower cand).
    split; [by left|]. split; [by apply dict_get_elem|apply endswith_refl]. }
  destruct (first_endswith snap_index (PyStr.lower cand)) as [p0|] eqn:Hf.
  { intros [= ->]. apply first_endswith_Some in Hf as (key & Hin & Hk).
    exists cand, key. split; [by left|done]. }
  intros (c & key & Hc & Hk)%IH. exists c, key. split; [by right|done].
Qed.

(** X4: the image search returns only indexed paths whose key ends with a
    lower-cased candidate of the row, and it returns one whenever some key
    of the index ends with some lower-cased candidate. *)
Theorem find_snapshot_resolves (snap_index : list (string * Path)) (r : Rct.row) :
  (∀ p, find_snapshot snap_index r = Some p →
     ∃ cand key, cand ∈ image_candidates r ∧ (key, p) ∈ snap_index
                 ∧ PyStr.endswith key (PyStr.lower cand) = true)
  ∧ (is_Some (find_snapshot snap_index r)
     ↔ ∃ cand key, cand ∈ image_candidates r ∧ key ∈ snap_index.*1
                   ∧ PyStr.endswith key (PyStr.lower cand) = true).
Proof.
  split; [intros p; apply find_candidate_Some|].
  unfold find_snapshot. rewrite <- found_candidate_find, found_candidate_true.
  split.
  - intros (lc & key & (cand & -> & Hc)%list_elem_of_fmap & Hk). by exists cand, key.
  - intros (cand & key & Hc & Hk). exists (PyStr.lower cand), key.
    split; [|done]. apply list_elem_of_fmap. by exists cand.
Qed.

(** X5: against an index built from a directory walk, the image search
    returns a regular file of the walk whose lower-cased name ends with a
    lower-cased candidate of the row. *)
Theorem find_snapshot_in_walk (entries : list Path) (r : Rct.row) (p : Path) :
  find_snapshot (index_snapshots entries) r = Some p →
  p ∈ entries ∧ is_file p = true
  ∧ ∃ cand pre, cand ∈ image_candidates r
                ∧ PyStr.lower (name p) = pre +:+ PyStr.lower cand.
Proof.
  intros (cand & key & Hc & Hin & Hk)%find_candidate_Some.
  destruct (index_snapshots_wf entries) as [_ Hinv].
  destruct (Hinv key p Hin) as (Hp & Hf & ->).
  split; [done|]. split; [done|].
  apply endswith_spec in Hk as [pre Hpre]. by exists cand, pre.
Qed.

Lemma find_snapshot_in_walk_witness :
  Demo.shot_42 ∈ [Demo.shot_42] ∧ is_file Demo.shot_42 = true
  ∧ ∃ cand pre, cand ∈ image_candidates Demo.task_42
                ∧ PyStr.lower (name Demo.shot_42) = pre +:+ PyStr.lower cand.
Proof.
  apply (find_snapshot_in_walk [Demo.shot_42] Demo.task_42 Demo.shot_42).
  vm_compute. reflexivity.
Defined.

Lemma row_scores_true (snap_index : list (string * Path)) (r : Rct.row) :
  let sf := PyStr.lower (PyStr.strip (PyStr.str_or_empty (Rct.snapshot_file r))) in
  let digits := PyStr.digits_of (PyStr.str_or_empty (Rct.task_id r)) in
  row_scores snap_index r = true
  ↔ ∃ cand key, cand ∈ candidates_of sf digits ∧ key ∈ snap_index.*1
                ∧ PyStr.endswith key cand = true.
Proof.
  intros sf digits. unfold row_scores. fold sf digits.
  destruct (PyStr.truthy sf && dict_mem snap_index sf) eqn:Hfast;
    [|apply found_candidate_true].
  apply andb_true_iff in Hfast as [Ht Hm].
  split; [|done]. intros _. exists sf, sf.
  split; [|split; [|apply endswith_refl]].
  - unfold candidates_of. rewrite Ht. apply elem_of_app. left. by left.
  - by apply dict_get_is_Some_keys, dict_mem_get.
Qed.

(** X6: the scoring loop counts a row exactly when some key of the index
    ends with one of its candidates: the trimmed, lower-cased stored name
    or one of the eight names made of the digits of the task id. *)
Theorem row_scores_iff (snap_index : list (string * Path)) (r : Rct.row) :
  let sf := PyStr.lower (PyStr.strip (PyStr.str_or_empty (Rct.snapshot_file r))) in
  let digits := PyStr.digits_of (PyStr.str_or_empty (Rct.task_id r)) in
  row_scores snap_index r = true
  ↔ ∃ cand key, cand ∈ candidates_of sf digits ∧ key ∈ snap_index.*1
                ∧ PyStr.endswith key cand = true.
Proof. apply row_scores_true. Qed.

Lemma length_filter_mono {A} (P Q : A → Prop)
    `{∀ x, Decision (P x)} `{∀ x, Decision (Q x)} (l : list A) :
  (∀ x, x ∈ l → P x → Q x) →
  (length (filter P l) ≤ length (filter Q l))%nat.
Proof.
  induction l as [|a l IH]; intros HPQ; [done|].
  rewrite !filter_cons.
  assert (IH' : (length (filter P l) ≤ length (filter Q l))%nat).
  { apply IH. intros x Hx. apply HPQ. by right. }
  destruct (decide (P a)) as [HP|HP]; destruct (decide (Q a)) as [HQ|HQ]; simpl; try lia.
  exfalso. apply HQ, HPQ; [by left|done].
Qed.

(** X7: adding files to the snapshot directory never lowers a score: when
    every key of one index is a key of another, each row counted against
    the first is counted against the second, and the score of every package
    against the second is at least its score against the first. *)
Theorem snapshot_score_monotone
    (index_a index_b : list (string * Path)) (df_rct2 : list Rct.row) (pkg : string) :
  (∀ k, k ∈ index_a.*1 → k ∈ index_b.*1) →
  (∀ r, row_scores index_a r = true → row_scores index_b r = true)
  ∧ (_snapshot_score_for_pkg index_a df_rct2 pkg
     ≤ _snapshot_score_for_pkg index_b df_rct2 pkg)%Z.
Proof.
  intros Hsub.
  assert (Hrow : ∀ r, row_scores index_a r = true → row_scores index_b r = true).
  { intros r. rewrite !row_scores_true.
    intros (cand & key & Hc & Hk & He). exists cand, key. auto. }
  split; [exact Hrow|].
  rewrite !snapshot_score_count. apply inj_le, length_filter_mono.
  intros r _. apply Hrow.
Qed.

Lemma snapshot_score_monotone_witness :
  (∀ r, row_scores (index_snapshots [Demo.none_file]) r = true →
        row_scores (index_snapshots [Demo.none_file; Demo.shot_42]) r = true)
  ∧ (_snapshot_score_for_pkg (index_snapshots [Demo.none_file]) [Demo.task_42] "app.demo"
     ≤ _snapshot_score_for_pkg (index_snapshots [Demo.none_file; Demo.shot_42])
         [Demo.task_42] "app.demo")%Z.
Proof.
  apply (snapshot_score_monotone (index_snapshots [Demo.none_file])
           (index_snapshots [Demo.none_file; Demo.shot_42]) [Demo.task_42] "app.demo").
  intros k ->%list_elem_of_singleton. by left.
Defined.

Lemma length_omap_filter {A B} (f : A → option B) (l : list A) :
  length (omap f l) = length (filter (λ x, is_Some (f x)) l).
Proof.
  induction l as [|a l IH]; [done|]. rewrite filter_cons. simpl.
  destruct (f a) as [b|] eqn:Hfa.
  - rewrite decide_True by (by eexists). simpl. f_equal. exact IH.
  - rewrite decide_False by (by intros [? ?]). exact IH.
Qed.

(** X8: for a package none of whose task rows has a NULL [snapshot_file],
    the two searches agree row by row, and the score of the package is the
    number of images the image loop collects for it. *)
Theorem score_counts_images
    (snap_index : list (string * Path)) (df_rct2 : list Rct.row) (pkg : string) :
  (∀ r, r ∈ sub_r df_rct2 pkg → is_Some (Rct.snapshot_file r)) →
  (∀ r, r ∈ sub_r df_rct2 pkg →
        (row_scores snap_index r = true ↔ is_Some (find_snapshot snap_index r)))
  ∧ _snapshot_score_for_pkg snap_index df_rct2 pkg
    = Z.of_nat (length (imgs snap_index (sub_r df_rct2 pkg))).
Proof.
  intros Hnamed.
  assert (Hrow : ∀ r, r ∈ sub_r df_rct2 pkg →
            (row_scores snap_index r = true ↔ is_Some (find_snapshot snap_index r))).
  { intros r [n Hn]%Hnamed. by apply (row_scores_named snap_index r n). }
  split; [exact Hrow|].
  rewrite snapshot_score_count. unfold imgs. rewrite length_omap_filter.
  f_equal. apply Nat.le_antisymm; apply length_filter_mono; intros r Hr; by apply Hrow.
Qed.

Lemma score_counts_images_witness :
  _snapshot_score_for_pkg (index_snapshots [Demo.shot_42])
    [Demo.task "42" None (Some " 42_REDUCED.png ")] "app.demo"
  = Z.of_nat (length (imgs (index_snapshots [Demo.shot_42])
       (sub_r [Demo.task "42" None (Some " 42_REDUCED.png ")] "app.demo"))).
Proof.
  apply (score_counts_images (index_snapshots [Demo.shot_42])
           [Demo.task "42" None (Some " 42_REDUCED.png ")] "app.demo").
  intros r Hr. apply list_elem_of_filter in Hr as [_ ->%list_elem_of_singleton].
  by eexists.
Defined.

(** ** Ranking without snapshots, and what the ranking covers *)

Global Instance rank_le_antisymm score : AntiSymm (=) (rank_le score).
Proof.
  intros x y [Hxy|[Hxy Hxy']] [Hyx|[Hyx Hyx']]; try lia.
  by apply (anti_symm String.le).
Qed.

Lemma StronglySorted_weaken {A} (R R' : relation A) (l : list A) :
  (∀ x y, R x y → R' x y) → StronglySorted R l → StronglySorted R' l.
Proof.
  intros HR. induction 1 as [|a l Hl IH Ha]; constructor; [done|].
  eapply Forall_impl; [exact Ha|]. intros y. apply HR.
Qed.

Lemma row_scores_empty_index r : row_scores [] r = false.
Proof.
  apply not_true_is_false. intros (cand & key & _ & Hk & _)%row_scores_true.
  by apply elem_of_nil in Hk.
Qed.

Lemma snapshot_score_empty_index df_rct2 pkg :
  _snapshot_score_for_pkg [] df_rct2 pkg = 0%Z.
Proof.
  rewrite snapshot_score_count.
  assert (filter (λ r, row_scores [] r = true) (sub_r df_rct2 pkg) = []) as ->; [|done].
  induction (sub_r df_rct2 pkg) as [|r rows IH]; [done|].
  rewrite filter_cons, decide_False; [done|]. by rewrite row_scores_empty_index.
Qed.

(** X9: with an empty index (no snapshot directory, or no file in it) no
    row is counted, every package has score 0, no image is collected, and
    the ranking is the alphabetical list of the packages. *)
Theorem empty_index_report (df_rct2 : list Rct.row) (df_usg2 : list Usg.row) :
  (∀ pkg, _snapshot_score_for_pkg (index_snapshots []) df_rct2 pkg = 0%Z)
  ∧ (∀ pkg, imgs (index_snapshots []) (sub_r df_rct2 pkg) = [])
  ∧ pkgs (index_snapshots []) df_rct2 df_usg2 = pkgs_all df_rct2 df_usg2
  ∧ StronglySorted String.le (pkgs (index_snapshots []) df_rct2 df_usg2).
Proof.
  change (index_snapshots []) with (@nil (string * Path)).
  assert (Hall : StronglySorted String.le (pkgs_all df_rct2 df_usg2)).
  { apply StronglySorted_merge_sort; apply _. }
  assert (Heq : pkgs [] df_rct2 df_usg2 = pkgs_all df_rct2 df_usg2).
  { apply (StronglySorted_unique (rank_le (_snapshot_score_for_pkg [] df_rct2))).
    - apply StronglySorted_merge_sort; apply _.
    - apply (StronglySorted_weaken String.le); [|exact Hall].
      intros x y Hxy. right. by rewrite !snapshot_score_empty_index.
    - apply merge_sort_Permutation. }
  split; [apply snapshot_score_empty_index|]. split.
  - intros pkg. unfold imgs. induction (sub_r df_rct2 pkg) as [|r rows IH]; [done|].
    simpl. assert (find_snapshot [] r = None) as ->; [|exact IH].
    apply eq_None_not_Some. intros [p (_ & key & _ & Hin & _)%find_candidate_Some].
    by apply elem_of_nil in Hin.
  - split; [exact Heq|]. by rewrite Heq.
Qed.

(** X10: the ranking lists exactly the packages that have a row in one of
    the two frames (rows without a package under [android]), and every
    listed package has a RecentTasks row or a UsageStats row: the
    "no data" paragraph of [build_html] is never written. *)
Theorem ranking_covers_rows
    (snap_index : list (string * Path))
    (df_rct2 : list Rct.row) (df_usg2 : list Usg.row) :
  (∀ r, r ∈ df_rct2 → Rct.pkg2 r ∈ pkgs snap_index df_rct2 df_usg2)
  ∧ (∀ r, r ∈ df_usg2 → Usg.pkg2 r ∈ pkgs snap_index df_rct2 df_usg2)
  ∧ (∀ pkg, pkg ∈ pkgs snap_index df_rct2 df_usg2 →
       sub_r df_rct2 pkg ≠ [] ∨ sub_u df_usg2 pkg ≠ []).
Proof.
  split; [|split].
  - intros r Hr. apply elem_of_pkgs. left. by apply list_elem_of_fmap_2.
  - intros r Hr. apply elem_of_pkgs. right. by apply list_elem_of_fmap_2.
  - intros pkg [(r & -> & Hr)%list_elem_of_fmap|(r & -> & Hr)%list_elem_of_fmap]%elem_of_pkgs.
    + left. intros Hnil.
      assert (Hin : r ∈ sub_r df_rct2 (Rct.pkg2 r)) by (by apply list_elem_of_filter).
      rewrite Hnil in Hin. by apply elem_of_nil in Hin.
    + right. intros Hnil.
      assert (Hin : r ∈ sub_u df_usg2 (Usg.pkg2 r)) by (by apply list_elem_of_filter).
      rewrite Hnil in Hin. by apply elem_of_nil in Hin.
Qed.

(** ** Most recent minutes and red rows *)

Lemma most_recent_nonempty (S : gset string) : most_recent S ≠ "" → S ≠ ∅.
Proof. intros Hne ->. by rewrite most_recent_empty in Hne. Qed.

Lemma most_recent_min_set_empty minutes :
  most_recent (min_set minutes) = "" ↔ min_set minutes = ∅.
Proof.
  split; [|intros ->; apply most_recent_empty].
  intros Heq. destruct (decide (min_set minutes = ∅)) as [|Hne]; [done|].
  apply most_recent_elem in Hne. rewrite Heq in Hne.
  by apply min_set_nonempty_keys in Hne.
Qed.

(** X11: the most recent minute of a source is the empty string exactly
    when the source has no minute key for the package; otherwise it is a
    key of the source and no key of the source is greater. *)
Theorem most_recent_minute_is_greatest
    (fromisoformat : string → option PyDatetime.datetime)
    (df_rct2 : list Rct.row) (df_usg2 : list Usg.row) (pkg : string) :
  (most_recent_usg_min df_usg2 pkg = "" ↔ usg_min_set df_usg2 pkg = ∅)
  ∧ (most_recent_rct_min fromisoformat df_rct2 pkg = ""
     ↔ rct_min_set fromisoformat df_rct2 pkg = ∅)
  ∧ (∀ m, m ∈ usg_min_set df_usg2 pkg →
       most_recent_usg_min df_usg2 pkg ∈ usg_min_set df_usg2 pkg
       ∧ String.le m (most_recent_usg_min df_usg2 pkg))
  ∧ (∀ m, m ∈ rct_min_set fromisoformat df_rct2 pkg →
       most_recent_rct_min fromisoformat df_rct2 pkg ∈ rct_min_set fromisoformat df_rct2 pkg
       ∧ String.le m (most_recent_rct_min fromisoformat df_rct2 pkg)).
Proof.
  split; [apply most_recent_min_set_empty|].
  split; [apply most_recent_min_set_empty|].
  split; intros m Hm; (split; [|by apply most_recent_upper]);
    apply most_recent_elem; intros Hempty; rewrite Hempty in Hm;
    by apply not_elem_of_empty in Hm.
Qed.

Section RedRows.

Variable fromisoformat : string → option PyDatetime.datetime.
Variable df_rct2 : list Rct.row.
Variable df_usg2 : list Usg.row.
Variable pkg : string.

Local Abbreviation rct_key := (_minute_key_from_rct_utc_to_kst fromisoformat).
Local Abbreviation uset := (usg_min_set df_usg2 pkg).
Local Abbreviation rset := (rct_min_set fromisoformat df_rct2 pkg).
Local Abbreviation mru := (most_recent_usg_min df_usg2 pkg).
Local Abbreviation mrr := (most_recent_rct_min fromisoformat df_rct2 pkg).
Local Abbreviation usg_cls := (usg_row_cls fromisoformat df_rct2 df_usg2 pkg).
Local Abbreviation rct_cls := (rct_row_cls fromisoformat df_rct2 df_usg2 pkg).

Lemma mru_elem : mru ≠ "" → mru ∈ uset.
Proof. intros H. by apply most_recent_elem, most_recent_nonempty. Qed.

Lemma mrr_elem : mrr ≠ "" → mrr ∈ rset.
Proof. intros H. by apply most_recent_elem, most_recent_nonempty. Qed.

Lemma usg_cls_red_iff r :
  usg_cls r = Red
  ↔ _minute_key_from_usg (Usg.last_time_kst r) = mru
    ∧ mru ≠ "" ∧ mrr ≠ "" ∧ mru ∉ rset.
Proof.
  split.
  - intros Hred. destruct (usg_cls_red _ _ _ _ _ Hred) as (Hu & Hr & Hne & Hk).
    repeat split; try done. intros Hin.
    assert (Hblue : usg_cls r = Blue).
    { apply usg_cls_blue. rewrite Hk. apply elem_of_intersection.
      split; [by apply mru_elem|done]. }
    congruence.
  - intros (Hk & Hu & Hr & Hnot). unfold usg_row_cls. rewrite Hk.
    assert (PyStr.truthy mru = true) as -> by (by apply truthy_true).
    assert (PyStr.truthy mrr = true) as -> by (by apply truthy_true).
    rewrite bool_decide_eq_false_2.
    2: { unfold intersect_minutes. rewrite elem_of_intersection. tauto. }
    rewrite String.eqb_refl. simpl.
    assert (String.eqb mru mrr = false) as ->; [|done].
    apply String.eqb_neq. intros Heq. apply Hnot. rewrite Heq. by apply mrr_elem.
Qed.

Lemma rct_cls_red_iff r :
  rct_cls r = Red
  ↔ rct_key (Rct.last_time_moved_utc r) = mrr
    ∧ mru ≠ "" ∧ mrr ≠ "" ∧ mrr ∉ uset.
Proof.
  split.
  - intros Hred. destruct (rct_cls_red _ _ _ _ _ Hred) as (Hu & Hr & Hne & Hk).
    repeat split; try done. intros Hin.
    assert (Hblue : rct_cls r = Blue).
    { apply rct_cls_blue. rewrite Hk. apply elem_of_intersection.
      split; [done|by apply mrr_elem]. }
    congruence.
  - intros (Hk & Hu & Hr & Hnot). unfold rct_row_cls. rewrite Hk.
    assert (PyStr.truthy mru = true) as -> by (by apply truthy_true).
    assert (PyStr.truthy mrr = true) as -> by (by apply truthy_true).
    rewrite bool_decide_eq_false_2.
    2: { unfold intersect_minutes. rewrite elem_of_intersection. tauto. }
    rewrite String.eqb_refl. simpl.
    assert (String.eqb mru mrr = false) as ->; [|done].
    apply String.eqb_neq. intros Heq. apply Hnot. rewrite <- Heq. by apply mru_elem.
Qed.

End RedRows.

(** X12: a UsageStats row is red exactly when its minute is the most recent
    UsageStats minute of the package, the package has RecentTasks minutes,
    and none of them is that minute; likewise for a RecentTasks row with the
    two sources exchanged. *)
Theorem red_row_iff
    (fromisoformat : string → option PyDatetime.datetime)
    (df_rct2 : list Rct.row) (df_usg2 : list Usg.row) (pkg : string) :
  (∀ r, usg_row_cls fromisoformat df_rct2 df_usg2 pkg r = Red
        ↔ _minute_key_from_usg (Usg.last_time_kst r) = most_recent_usg_min df_usg2 pkg
          ∧ most_recent_usg_min df_usg2 pkg ≠ ""
          ∧ most_recent_rct_min fromisoformat df_rct2 pkg ≠ ""
          ∧ most_recent_usg_min df_usg2 pkg ∉ rct_min_set fromisoformat df_rct2 pkg)
  ∧ (∀ r, rct_row_cls fromisoformat df_rct2 df_usg2 pkg r = Red
        ↔ _minute_key_from_rct_utc_to_kst fromisoformat (Rct.last_time_moved_utc r)
            = most_recent_rct_min fromisoformat df_rct2 pkg
          ∧ most_recent_usg_min df_usg2 pkg ≠ ""
          ∧ most_recent_rct_min fromisoformat df_rct2 pkg ≠ ""
          ∧ most_recent_rct_min fromisoformat df_rct2 pkg ∉ usg_min_set df_usg2 pkg).
Proof. split; intros r; [apply usg_cls_red_iff|apply rct_cls_red_iff]. Qed.

(** X13: when both sources have minutes for a package and their most recent
    minutes differ, the table of the source whose most recent minute is the
    later one has a red row; so a disagreement on the most recent minute is
    always shown. *)
Theorem later_source_has_red_row
    (fromisoformat : string → option PyDatetime.datetime)
    (df_rct2 : list Rct.row) (df_usg2 : list Usg.row) (pkg : string) :
  most_recent_usg_min df_usg2 pkg ≠ "" →
  most_recent_rct_min fromisoformat df_rct2 pkg ≠ "" →
  most_recent_usg_min df_usg2 pkg ≠ most_recent_rct_min fromisoformat df_rct2 pkg →
  (String.le (most_recent_usg_min df_usg2 pkg)
             (most_recent_rct_min fromisoformat df_rct2 pkg) →
   ∃ r, (r, Red) ∈ rct_table fromisoformat df_rct2 df_usg2 pkg)
  ∧ (String.le (most_recent_rct_min fromisoformat df_rct2 pkg)
               (most_recent_usg_min df_usg2 pkg) →
     ∃ r, (r, Red) ∈ usg_table fromisoformat df_rct2 df_usg2 pkg)
  ∧ ((∃ r, (r, Red) ∈ rct_table fromisoformat df_rct2 df_usg2 pkg)
     ∨ (∃ r, (r, Red) ∈ usg_table fromisoformat df_rct2 df_usg2 pkg)).
Proof.
  intros Hu Hr Hne.
  assert (Hlate_r : String.le (most_recent_usg_min df_usg2 pkg)
                      (most_recent_rct_min fromisoformat df_rct2 pkg) →
                    ∃ r, (r, Red) ∈ rct_table fromisoformat df_rct2 df_usg2 pkg).
  { intros Hle.
    pose proof (mrr_elem fromisoformat df_rct2 pkg Hr) as Hin.
    pose proof Hin as (_ & r & Hrow & Hk)%elem_of_rct_min_set.
    exists r. apply elem_of_rct_table. split; [done|]. symmetry.
    apply rct_cls_red_iff. repeat split; try done.
    intros Hin'. apply Hne. apply (anti_symm String.le); [done|].
    by apply most_recent_upper. }
  assert (Hlate_u : String.le (most_recent_rct_min fromisoformat df_rct2 pkg)
                      (most_recent_usg_min df_usg2 pkg) →
                    ∃ r, (r, Red) ∈ usg_table fromisoformat df_rct2 df_usg2 pkg).
  { intros Hle.
    pose proof (mru_elem df_usg2 pkg Hu) as Hin.
    pose proof Hin as (_ & r & Hrow & Hk)%elem_of_usg_min_set.
    exists r. apply elem_of_usg_table. split; [done|]. symmetry.
    apply usg_cls_red_iff. repeat split; try done.
    intros Hin'. apply Hne. apply (anti_symm String.le); [|done].
    by apply most_recent_upper. }
  split; [done|]. split; [done|].
  destruct (total String.le (most_recent_usg_min df_usg2 pkg)
              (most_recent_rct_min fromisoformat df_rct2 pkg)); auto.
Qed.

Lemma later_source_has_red_row_witness :
  ∃ r, (r, Red) ∈ rct_table PyDatetime.fromisoformat Demo.df_rct Demo.df_usg "app.demo".
Proof.
  apply (later_source_has_red_row PyDatetime.fromisoformat
           Demo.df_rct Demo.df_usg "app.demo").
  - vm_compute. discriminate.
  - vm_compute. discriminate.
  - vm_compute. discriminate.
  - vm_compute. exact I.
Defined.

(** X14: when one of the two sources has no minute key for a package, no
    row of either table of the package gets a class. *)
Theorem one_source_without_minutes
    (fromisoformat : string → option PyDatetime.datetime)
    (df_rct2 : list Rct.row) (df_usg2 : list Usg.row) (pkg : string) :
  usg_min_set df_usg2 pkg = ∅ ∨ rct_min_set fromisoformat df_rct2 pkg = ∅ →
  (∀ r c, (r, c) ∈ usg_table fromisoformat df_rct2 df_usg2 pkg → c = NoClass)
  ∧ (∀ r c, (r, c) ∈ rct_table fromisoformat df_rct2 df_usg2 pkg → c = NoClass).
Proof.
  intros Hempty.
  assert (Hint : intersect_minutes fromisoformat df_rct2 df_usg2 pkg = ∅).
  { unfold intersect_minutes. apply elem_of_equiv_empty_L.
    intros x [H1 H2]%elem_of_intersection.
    destruct Hempty as [H|H].
    - rewrite H in H1. by apply not_elem_of_empty in H1.
    - rewrite H in H2. by apply not_elem_of_empty in H2. }
  assert (Hmr : most_recent_usg_min df_usg2 pkg = ""
                ∨ most_recent_rct_min fromisoformat df_rct2 pkg = "").
  { destruct Hempty as [H|H]; [left|right];
      unfold most_recent_usg_min, most_recent_rct_min; rewrite H;
      apply most_recent_empty. }
  split; intros r c Hin.
  - apply elem_of_usg_table in Hin as [_ ->].
    destruct (usg_row_cls fromisoformat df_rct2 df_usg2 pkg r) eqn:Hc; [done|..].
    + apply usg_cls_blue in Hc. rewrite Hint in Hc. by apply not_elem_of_empty in Hc.
    + apply usg_cls_red in Hc as (? & ? & _). by destruct Hmr.
  - apply elem_of_rct_table in Hin as [_ ->].
    destruct (rct_row_cls fromisoformat df_rct2 df_usg2 pkg r) eqn:Hc; [done|..].
    + apply rct_cls_blue in Hc. rewrite Hint in Hc. by apply not_elem_of_empty in Hc.
    + apply rct_cls_red in Hc as (? & ? & _). by destruct Hmr.
Qed.

Lemma one_source_without_minutes_witness :
  (∀ r c, (r, c) ∈ usg_table PyDatetime.fromisoformat [] Demo.df_usg "app.demo" →
          c = NoClass)
  ∧ (∀ r c, (r, c) ∈ rct_table PyDatetime.fromisoformat [] Demo.df_usg "app.demo" →
            c = NoClass).
Proof.
  apply (one_source_without_minutes PyDatetime.fromisoformat [] Demo.df_usg "app.demo").
  right. reflexivity.
Defined.

(** ** Shape of the minute keys *)

Lemma take_length n s : (String.length (PyStr.take n s) ≤ n)%nat.
Proof.
  revert s. induction n as [|n IH]; intros [|c s]; simpl; try lia.
  specialize (IH s). lia.
Qed.

Lemma strftime_minute_length dt :
  String.length (PyDatetime.strftime_minute dt) = 16%nat.
Proof.
  unfold PyDatetime.strftime_minute, PyDatetime.pad4.
  rewrite !str_app_length. reflexivity.
Qed.

(** X15: a minute key never has more than 16 characters, whichever of the
    two functions makes it and whatever the time stamp is. *)
Theorem minute_key_length
    (fromisoformat : string → option PyDatetime.datetime) (s : option string) :
  (String.length (_minute_key_from_usg s) ≤ 16)%nat
  ∧ (String.length (_minute_key_from_rct_utc_to_kst fromisoformat s) ≤ 16)%nat.
Proof.
  split.
  - destruct s as [s|]; [|simpl; lia]. unfold _minute_key_from_usg.
    destruct (PyStr.truthy s); cbn [negb]; [apply take_length|simpl; lia].
  - destruct s as [s|]; [|simpl; lia].
    destruct (decide (s = "")) as [->|Hs]; [simpl; lia|].
    destruct (rct_key_cases fromisoformat s Hs) as [->|[dt ->]].
    + apply take_length.
    + by rewrite strftime_minute_length.
Qed.

Lemma replace_idemp a b s :
  a ≠ b → PyStr.replace a b (PyStr.replace a b s) = PyStr.replace a b s.
Proof.
  intros Hab. induction s as [|c s IH]; [done|]. simpl. rewrite IH. f_equal.
  destruct (Ascii.eqb_spec c a) as [->|Hc].
  - destruct (Ascii.eqb_spec b a); congruence.
  - destruct (Ascii.eqb_spec c a); congruence.
Qed.

(** X16: a UsageStats time stamp written with [T] between date and time
    gets the same minute key as the one written with a blank. *)
Theorem usg_key_ignores_T (s : string) :
  _minute_key_from_usg (Some (PyStr.replace "T" " " s))
  = _minute_key_from_usg (Some s).
Proof.
  unfold _minute_key_from_usg. rewrite replace_idemp by done.
  by destruct s.
Qed.

(** ** What [_extract_package] returns *)

Lemma extract_package_cases ra g :
  _extract_package (Some ra) = Some g →
  let s := PyStr.strip ra in
  brace_first s g ∨ leading s g ∨ (Ident s ∧ g = s) ∨ dotted_first s g.
Proof.
  unfold _extract_package. destruct (PyStr.truthy ra); cbn [negb]; [|done].
  destruct (Re.re_search Re.brace_component _) as [g0|] eqn:Ha.
  { intros [= <-]. left. by apply search_brace_some. }
  destruct (Re.leading_token _) as [g0|] eqn:Hb.
  { intros [= <-]. right; left. by apply leading_some. }
  destruct (Re.pure_package _) as [g0|] eqn:Hc.
  { intros [= <-]. right; right; left. by apply pure_some. }
  intros Hd. right; right; right. by apply search_dotted_some.
Qed.

Lemma Ident_android : Ident "android".
Proof. split; [discriminate|reflexivity]. Qed.

(** X17: what [_extract_package] returns is a non-empty string of letters,
    digits, dots and underscores that occurs in the trimmed descriptor; so
    the package under which a task is listed ([android] when nothing is
    returned) is always such a string. *)
Theorem extract_package_is_identifier (r : Rct.row) :
  (∀ ra g, _extract_package (Some ra) = Some g →
     Ident g ∧ ∃ pre post, PyStr.strip ra = pre +:+ g +:+ post)
  ∧ _extract_package None = None
  ∧ Ident (Rct.pkg2 (Rct.with_package r)).
Proof.
  assert (Hsome : ∀ ra g, _extract_package (Some ra) = Some g →
            Ident g ∧ ∃ pre post, PyStr.strip ra = pre +:+ g +:+ post).
  { intros ra g Hg. apply extract_package_cases in Hg.
    destruct Hg as [(pre & post & -> & Hg & _)
                    |[(c & post & -> & Hg & _)
                      |[[Hs ->]|(pre & post & -> & Hg & _)]]].
    - split; [done|]. exists (pre +:+ "{"), ("/" +:+ post).
      by rewrite <- str_app_assoc.
    - split; [done|]. by exists "", (String c post).
    - split; [done|]. exists "", "". by rewrite str_app_nil_r.
    - split; [done|]. by exists pre, ("." +:+ post). }
  split; [exact Hsome|]. split; [done|].
  unfold Rct.pkg2, Rct.with_package. simpl.
  destruct (Rct.real_activity r) as [ra|]; [|apply Ident_android].
  destruct (_extract_package (Some ra)) as [g|] eqn:Hg; [|apply Ident_android].
  by apply Hsome in Hg as [? _].
Qed.

Lemma is_ident_not_space c : Re.is_ident c = true → PyStr.isspace c = false.
Proof. destruct c as [[] [] [] [] [] [] [] []]; vm_compute; congruence. Qed.

Lemma is_ident_not_brace c : Re.is_ident c = true → Ascii.eqb c "{" = false.
Proof. destruct c as [[] [] [] [] [] [] [] []]; vm_compute; congruence. Qed.

Lemma str_forall_app P s t :
  str_forall P (s +:+ t) = str_forall P s && str_forall P t.
Proof.
  induction s as [|c s IH]; [done|]. rewrite str_app_cons. simpl.
  by rewrite IH, andb_assoc.
Qed.

Lemma str_forall_impl (P Q : ascii → bool) s :
  (∀ c, P c = true → Q c = true) → str_forall P s = true → str_forall Q s = true.
Proof.
  intros HPQ. induction s as [|c s IH]; [done|]. simpl.
  intros [Hc Hs]%andb_true_iff. by rewrite (HPQ c Hc), IH.
Qed.

Lemma str_forall_rstrip P s :
  str_forall P s = true → str_forall P (PyStr.rstrip s) = true.
Proof.
  induction s as [|c s IH]; [done|]. simpl.
  intros [Hc Hs]%andb_true_iff.
  destruct (PyStr.isspace c && negb (PyStr.truthy (PyStr.rstrip s))); [done|].
  simpl. by rewrite Hc, IH.
Qed.

Lemma lstrip_nonspace c s :
  PyStr.isspace c = false → PyStr.lstrip (String c s) = String c s.
Proof. intros Hc. simpl. by rewrite Hc. Qed.

Lemma rstrip_app a t :
  PyStr.rstrip t ≠ "" → PyStr.rstrip (a +:+ t) = a +:+ PyStr.rstrip t.
Proof.
  intros Ht. induction a as [|c a IH]; [done|].
  rewrite !str_app_cons. simpl. rewrite IH.
  assert (PyStr.truthy (a +:+ PyStr.rstrip t) = true) as ->; [|by rewrite andb_false_r].
  apply truthy_true. intros [_ ?]%str_app_eq_nil. done.
Qed.

Lemma rstrip_nonspace s :
  str_forall (λ c, negb (PyStr.isspace c)) s = true → PyStr.rstrip s = s.
Proof.
  induction s as [|c s IH]; [done|]. simpl.
  intros [Hc Hs]%andb_true_iff. apply negb_true_iff in Hc.
  by rewrite Hc, IH.
Qed.

Lemma search_brace_no_brace s :
  str_forall (λ c, negb (Ascii.eqb c "{")) s = true →
  Re.re_search Re.brace_component s = None.
Proof.
  induction s as [|c s IH]; [done|]. simpl.
  intros [Hc Hs]%andb_true_iff. apply negb_true_iff in Hc.
  rewrite Hc. by apply IH.
Qed.

Lemma plus_then_exact cls next g c rest :
  g ≠ "" → str_forall cls g = true → cls c = false →
  next (String c rest) = true →
  Re.plus_then cls next (g +:+ String c rest) = Some g.
Proof.
  intros Hg Hall Hc Hnext. induction g as [|a g IH]; [done|].
  simpl in Hall. apply andb_true_iff in Hall as [Ha Hall].
  rewrite str_app_cons. simpl. rewrite Ha.
  destruct g as [|a' g].
  - rewrite str_app_nil_l. simpl. by rewrite Hc, Hnext.
  - by rewrite IH.
Qed.

Lemma plus_then_all_none cls cs s :
  str_forall cls s = true → (∀ c, c ∈ cs → cls c = false) →
  Re.plus_then cls (Re.next_in cs) s = None.
Proof.
  intros Hall Hcs. induction s as [|a s IH]; [done|].
  simpl in Hall. apply andb_true_iff in Hall as [Ha Hall].
  simpl. rewrite Ha, (IH Hall).
  destruct s as [|b s]; [done|]. simpl.
  simpl in Hall. apply andb_true_iff in Hall as [Hb _].
  destruct (existsb (Ascii.eqb b) cs) eqn:He; [|done].
  apply existsb_exists in He as (x & Hx%list_elem_of_In & ->%Ascii.eqb_eq).
  rewrite (Hcs _ Hx) in Hb. done.
Qed.

Lemma plus_then_all_end cls s :
  s ≠ "" → str_forall cls s = true → Re.plus_then cls Re.at_end s = Some s.
Proof.
  intros Hs Hall. induction s as [|a s IH]; [done|].
  simpl in Hall. apply andb_true_iff in Hall as [Ha Hall].
  simpl. rewrite Ha. destruct s as [|b s]; [done|].
  by rewrite IH.
Qed.

(** X18: a descriptor [pkg/cls] whose [pkg] is an identifier and whose
    [cls] holds no opening brace resolves to [pkg], and a descriptor that is
    a bare identifier resolves to itself. *)
Theorem extract_package_component (pkg cls : string) :
  Ident pkg →
  (str_forall (λ c, negb (Ascii.eqb c "{")) cls = true →
   _extract_package (Some (pkg +:+ "/" +:+ cls)) = Some pkg)
  ∧ _extract_package (Some pkg) = Some pkg.
Proof.
  intros [Hne Hall].
  destruct pkg as [|a pkg]; [done|].
  pose proof Hall as Hall'. simpl in Hall'.
  apply andb_true_iff in Hall' as [Ha _].
  pose proof (is_ident_not_space a Ha) as Hsp.
  split.
  - intros Hcls. unfold _extract_package.
    rewrite str_app_cons. cbn [PyStr.truthy negb].
    unfold PyStr.strip. rewrite lstrip_nonspace by done.
    rewrite <- str_app_cons.
    rewrite (rstrip_app (String a pkg) ("/" +:+ cls)).
    2: { rewrite str_app_cons, str_app_nil_l. simpl. done. }
    assert (Hr : PyStr.rstrip ("/" +:+ cls) = String "/" (PyStr.rstrip cls)).
    { by rewrite str_app_cons, str_app_nil_l. }
    rewrite Hr. rewrite search_brace_no_brace.
    2: { rewrite str_forall_app. apply andb_true_iff. split.
         - apply (str_forall_impl Re.is_ident); [|done].
           intros c Hc. by rewrite (is_ident_not_brace c Hc).
         - simpl. by apply str_forall_rstrip. }
    unfold Re.leading_token. rewrite plus_then_exact; done.
  - unfold _extract_package. cbn [PyStr.truthy negb].
    unfold PyStr.strip. rewrite lstrip_nonspace by done.
    rewrite rstrip_nonspace.
    2: { apply (str_forall_impl Re.is_ident); [|done].
         intros c Hc. by rewrite (is_ident_not_space c Hc). }
    rewrite search_brace_no_brace.
    2: { apply (str_forall_impl Re.is_ident); [|done].
         intros c Hc. by rewrite (is_ident_not_brace c Hc). }
    unfold Re.leading_token. rewrite plus_then_all_none; [|done|].
    2: { intros c [->|[->|H]%elem_of_cons]%elem_of_cons; [done..|].
         by apply elem_of_nil in H. }
    unfold Re.pure_package. by rewrite plus_then_all_end.
Qed.

Lemma extract_package_component_witness :
  (str_forall (λ c, negb (Ascii.eqb c "{")) ".Settings$Sub" = true →
   _extract_package (Some ("com.android.settings" +:+ "/" +:+ ".Settings$Sub"))
   = Some "com.android.settings")
  ∧ _extract_package (Some "com.android.settings") = Some "com.android.settings".
Proof.
  apply (extract_package_component "com.android.settings" ".Settings$Sub").
  split; [discriminate|reflexivity].
Defined.

(** ** HTML escaping *)

Lemma replace_by_app a b s t :
  replace_by a b (s +:+ t) = replace_by a b s +:+ replace_by a b t.
Proof.
  induction s as [|c s IH]; [done|]. rewrite str_app_cons. simpl.
  destruct (Ascii.eqb c a).
  - by rewrite IH, str_app_assoc.
  - by rewrite IH, str_app_cons.
Qed.

Lemma esc_cons c s : esc (Some (String c s)) = entity c +:+ esc (Some s).
Proof.
  unfold esc, entity. cbn [replace_by].
  destruct (Ascii.eqb_spec c "&") as [->|Hamp].
  { rewrite !replace_by_app. reflexivity. }
  cbn [replace_by].
  destruct (Ascii.eqb_spec c "<") as [->|Hlt].
  { rewrite !replace_by_app. reflexivity. }
  cbn [replace_by].
  destruct (Ascii.eqb_spec c ">") as [->|Hgt]; reflexivity.
Qed.

(** X19: [esc] rewrites a text character by character: [&], [<] and [>]
    become [&amp;], [&lt;] and [&gt;], every other character is kept, and
    the [&] of an entity written for an earlier character is not escaped
    again; a missing cell gives the empty text. *)
Theorem esc_character_wise (s t : string) (c : ascii) :
  esc None = ""
  ∧ esc (Some "") = ""
  ∧ esc (Some (String c s)) = entity c +:+ esc (Some s)
  ∧ esc (Some (s +:+ t)) = esc (Some s) +:+ esc (Some t).
Proof.
  split; [done|]. split; [done|]. split; [apply esc_cons|].
  induction s as [|a s IH]; [done|].
  by rewrite str_app_cons, !esc_cons, IH, str_app_assoc.
Qed.

Lemma str_forall_entity c :
  str_forall (λ x, negb (Ascii.eqb x "<") && negb (Ascii.eqb x ">")) (entity c) = true.
Proof.
  unfold entity.
  destruct (Ascii.eqb_spec c "&"); [done|].
  destruct (Ascii.eqb c "<") eqn:Hlt; [done|].
  destruct (Ascii.eqb c ">") eqn:Hgt; [done|].
  simpl. by rewrite Hlt, Hgt.
Qed.

(** X20: the text [esc] returns holds neither [<] nor [>], whatever the
    cell holds, and a text without [&], [<] and [>] is returned unchanged. *)
Theorem esc_no_markup (s : option string) :
  str_forall (λ x, negb (Ascii.eqb x "<") && negb (Ascii.eqb x ">")) (esc s) = true
  ∧ ∀ t, s = Some t →
      str_forall (λ x, negb (Ascii.eqb x "&") && negb (Ascii.eqb x "<")
                       && negb (Ascii.eqb x ">")) t = true →
      esc s = t.
Proof.
  split.
  - destruct s as [s|]; [|done].
    induction s as [|c s IH]; [done|].
    rewrite esc_cons, str_forall_app, IH, str_forall_entity. done.
  - intros t -> Hsafe. induction t as [|c t IH]; [done|].
    simpl in Hsafe. apply andb_true_iff in Hsafe as [Hc Ht].
    rewrite esc_cons, (IH Ht). unfold entity.
    apply andb_true_iff in Hc as [[Hamp Hlt]%andb_true_iff Hgt].
    apply negb_true_iff in Hamp, Hlt, Hgt. by rewrite Hamp, Hlt, Hgt.
Qed.

(** ** Rows and sections *)

(** X21: every row of either frame is shown once: it is in the table of
    the package it belongs to ([android] when it has none), that package is
    in the ranking, and the row is in the table of no other package. *)
Theorem every_row_is_shown
    (fromisoformat : string → option PyDatetime.datetime)
    (snap_index : list (string * Path))
    (df_rct2 : list Rct.row) (df_usg2 : list Usg.row) :
  (∀ r, r ∈ df_rct2 →
     Rct.pkg2 r ∈ pkgs snap_index df_rct2 df_usg2
     ∧ ∀ pkg, (∃ c, (r, c) ∈ rct_table fromisoformat df_rct2 df_usg2 pkg)
              ↔ pkg = Rct.pkg2 r)
  ∧ (∀ r, r ∈ df_usg2 →
     Usg.pkg2 r ∈ pkgs snap_index df_rct2 df_usg2
     ∧ ∀ pkg, (∃ c, (r, c) ∈ usg_table fromisoformat df_rct2 df_usg2 pkg)
              ↔ pkg = Usg.pkg2 r).
Proof.
  split; intros r Hr; split.
  - apply elem_of_pkgs. left. by apply list_elem_of_fmap_2.
  - intros pkg. split.
    + intros [c [[Hp _]%list_elem_of_filter _]%elem_of_rct_table]. done.
    + intros ->. eexists. apply elem_of_rct_table. split; [|done].
      by apply list_elem_of_filter.
  - apply elem_of_pkgs. right. by apply list_elem_of_fmap_2.
  - intros pkg. split.
    + intros [c [[Hp _]%list_elem_of_filter _]%elem_of_usg_table]. done.
    + intros ->. eexists. apply elem_of_usg_table. split; [|done].
      by apply list_elem_of_filter.
Qed.

(** X22: matches come in pairs: for every blue row of one table of a
    package, the other table of the package has a blue row with the same
    minute key. *)
Theorem blue_rows_have_partners
    (fromisoformat : string → option PyDatetime.datetime)
    (df_rct2 : list Rct.row) (df_usg2 : list Usg.row) (pkg : string) :
  (∀ r, (r, Blue) ∈ usg_table fromisoformat df_rct2 df_usg2 pkg →
     ∃ r', (r', Blue) ∈ rct_table fromisoformat df_rct2 df_usg2 pkg
           ∧ _minute_key_from_rct_utc_to_kst fromisoformat (Rct.last_time_moved_utc r')
             = _minute_key_from_usg (Usg.last_time_kst r))
  ∧ (∀ r, (r, Blue) ∈ rct_table fromisoformat df_rct2 df_usg2 pkg →
     ∃ r', (r', Blue) ∈ usg_table fromisoformat df_rct2 df_usg2 pkg
           ∧ _minute_key_from_usg (Usg.last_time_kst r')
             = _minute_key_from_rct_utc_to_kst fromisoformat (Rct.last_time_moved_utc r)).
Proof.
  split; intros r Hin.
  - apply elem_of_usg_table in Hin as [_ Hc]. symmetry in Hc.
    apply usg_cls_blue in Hc. pose proof Hc as Hc'. unfold intersect_minutes in Hc'.
    apply elem_of_intersection in Hc' as [_ Hr].
    apply elem_of_rct_min_set in Hr as (_ & r' & Hr' & Hk).
    exists r'. split; [|done]. apply elem_of_rct_table. split; [done|].
    symmetry. apply rct_cls_blue. by rewrite Hk.
  - apply elem_of_rct_table in Hin as [_ Hc]. symmetry in Hc.
    apply rct_cls_blue in Hc. pose proof Hc as Hc'. unfold intersect_minutes in Hc'.
    apply elem_of_intersection in Hc' as [Hu _].
    apply elem_of_usg_min_set in Hu as (_ & r' & Hr' & Hk).
    exists r'. split; [|done]. apply elem_of_usg_table. split; [done|].
    symmetry. apply usg_cls_blue. by rewrite Hk.
Qed.
